(** * Feature pipelines of the personalized recommender

    A shallow embedding of [recsys/features/customers.py] and
    [recsys/features/transactions.py].  The two files are written against
    the polars dataframe library; the part of polars they use (frames,
    row-wise expressions, null handling, inner join, sampling) is modelled
    first, then the functions of the two files are transcribed on top of
    it, and the properties of the specification are stated and proved
    last. *)

From Stdlib Require Import ZArith QArith Qround Lia Lqa.
From stdpp Require Import base tactics option list strings gmap pretty.

Local Open Scope Z_scope.

(** ** Cell values

    A polars cell is either null or a value of the column's dtype.  A
    finite [Float64] is represented by the rational it denotes
    (comparisons with the integer bounds used below are exact on floats,
    so nothing is lost); a [Datetime] by its time unit and its native
    epoch integer, a [Date] by its day count since 1970-01-01. *)

Inductive TimeUnit := ns | us | ms.

Inductive value :=
| VNull
| VBool (b : bool)
| VInt (z : Z)
| VFloat (q : Q)
| VStr (s : string)
| VDatetime (u : TimeUnit) (t : Z)
| VDate (d : Z).

Inductive dtype := Utf8 | Int64 | Float64.

Definition is_null (v : value) : bool :=
  match v with VNull => true | _ => false end.

(** Equality of join keys: by value, rationals up to [Qeq]. *)
Definition value_eqb (a b : value) : bool :=
  match a, b with
  | VNull, VNull => true
  | VBool x, VBool y => Bool.eqb x y
  | VInt x, VInt y => x =? y
  | VFloat x, VFloat y => Qeq_bool x y
  | VStr x, VStr y => bool_decide (x = y)
  | VDatetime u x, VDatetime w y =>
      match u, w with
      | ns, ns | us, us | ms, ms => x =? y
      | _, _ => false
      end
  | VDate x, VDate y => x =? y
  | _, _ => false
  end.

(** ** Errors and results *)

Inductive error :=
| ValueError (msg : string)
| KeyError
| ShapeError
| ColumnNotFoundError (name : string)
| InvalidOperationError.

Inductive result (A : Type) :=
| Ok (a : A)
| Err (e : error).
Arguments Ok {A} a.
Arguments Err {A} e.

#[global] Instance result_ret : MRet result := fun A a => Ok a.
#[global] Instance result_bind : MBind result := fun A B f m =>
  match m with Ok a => f a | Err e => Err e end.
#[global] Instance result_fmap : FMap result := fun A B f m =>
  match m with Ok a => Ok (f a) | Err e => Err e end.

(** Left-to-right traversal that stops at the first error. *)
Fixpoint traverse {A B} (f : A -> result B) (l : list A) : result (list B) :=
  match l with
  | [] => Ok []
  | x :: l' => y ← f x; ys ← traverse f l'; Ok (y :: ys)
  end.

(** ** What is taken from the host libraries

    The draw of a sample, the rendering of floats and temporals as text
    and the parsing casts are not computed by the two source files; they
    are the libraries'.  They are kept abstract, with the part of their
    documented behaviour that the source relies on. *)

Class Host := {
  (** Python's [random] module: generator state, [random.seed],
      [random.randint]. *)
  rng : Type;
  random_seed : Z -> rng;
  random_randint : Z -> Z -> rng -> Z * rng;
  (** polars: the [n] row indices drawn without replacement from a frame
      of [len] rows, for a given seed. *)
  rand_index : Z -> nat -> nat -> list nat;
  rand_index_length : forall seed n len,
    (n <= len)%nat -> length (rand_index seed n len) = n;
  rand_index_bound : forall seed n len,
    Forall (fun i => (i < len)%nat) (rand_index seed n len);
  rand_index_NoDup : forall seed n len, NoDup (rand_index seed n len);
  (** polars: whether null keys match each other in a join (the default
      changed between releases). *)
  join_nulls : bool;
  (** polars: strict casts that this development does not pin down
      (parsing a string as a number, rendering a float or a temporal as
      text, ...); [None] is a failed strict cast. *)
  cast_other : dtype -> value -> option value;
}.

(** ** Frames

    A frame has its column names, in order, and its rows; a row maps a
    column name to a cell. *)

Record DataFrame := {
  columns : list string;
  rows : list (gmap string value);
}.

Definition height (df : DataFrame) : Z := Z.of_nat (length (rows df)).

(** The first name of [names] that is not a column of [df], if any. *)
Definition missing_column (names : list string) (df : DataFrame) : option string :=
  head (filter (fun c => c ∉ columns df) names).

Definition check_columns (names : list string) (df : DataFrame) : result unit :=
  match missing_column names df with
  | Some c => Err (ColumnNotFoundError c)
  | None => Ok tt
  end.

(** ** Calendar

    Proleptic Gregorian date of a day count since 1970-01-01 (the
    era-based conversion used by date libraries), and the ISO weekday
    (Monday is 1, Sunday is 7; 1970-01-01 was a Thursday). *)

Definition civil_from_days (days : Z) : Z * Z * Z :=
  let z := days + 719468 in
  let era := z / 146097 in
  let doe := z - era * 146097 in
  let yoe := (doe - doe / 1460 + doe / 36524 - doe / 146096) / 365 in
  let y := yoe + era * 400 in
  let doy := doe - (365 * yoe + yoe / 4 - yoe / 100) in
  let mp := (5 * doy + 2) / 153 in
  let d := doy - (153 * mp + 2) / 5 + 1 in
  let m := if mp <? 10 then mp + 3 else mp - 9 in
  (if m <=? 2 then y + 1 else y, m, d).

Definition year_of_days (days : Z) : Z := (civil_from_days days).1.1.
Definition month_of_days (days : Z) : Z := (civil_from_days days).1.2.
Definition day_of_days (days : Z) : Z := (civil_from_days days).2.
Definition weekday_of_days (days : Z) : Z := (days + 3) mod 7 + 1.

(** Native ticks of a time unit in one millisecond and in one day. *)
Definition ticks_per_ms (u : TimeUnit) : Z :=
  match u with ns => 1000000 | us => 1000 | ms => 1 end.

Definition ticks_per_day (u : TimeUnit) : Z := 86400000 * ticks_per_ms u.

(** ** Expressions

    [pl.Expr] is a data structure in the source ([create_age_group]
    returns one), so it is one here.  All the expressions used are
    row-wise. *)

Inductive Expr :=
| col (name : string)
| lit (v : value)
| alias (e : Expr) (name : string)
| cast (e : Expr) (t : dtype)
| fill_null (e : Expr) (v : value)
| is_between (e : Expr) (lo hi : Z)
| when_then_otherwise (c a b : Expr)
| dt_year (e : Expr)
| dt_month (e : Expr)
| dt_day (e : Expr)
| dt_weekday (e : Expr)
| floordiv (e : Expr) (k : Z).

(** Name of the column an expression writes to. *)
Fixpoint output_name (e : Expr) : string :=
  match e with
  | col name => name
  | lit _ => "literal"
  | alias _ name => name
  | cast e _ | fill_null e _ | is_between e _ _
  | dt_year e | dt_month e | dt_day e | dt_weekday e | floordiv e _ => output_name e
  | when_then_otherwise _ a _ => output_name a
  end.

(** Columns an expression reads. *)
Fixpoint root_names (e : Expr) : list string :=
  match e with
  | col name => [name]
  | lit _ => []
  | alias e _ | cast e _ | fill_null e _ | is_between e _ _
  | dt_year e | dt_month e | dt_day e | dt_weekday e | floordiv e _ => root_names e
  | when_then_otherwise c a b => root_names c ++ root_names a ++ root_names b
  end.

(** [is_between lo hi], closed on both ends; null stays null. *)
Definition between_value (lo hi : Z) (v : value) : result value :=
  match v with
  | VNull => Ok VNull
  | VInt z => Ok (VBool ((lo <=? z) && (z <=? hi)))
  | VFloat q => Ok (VBool (Qle_bool (inject_Z lo) q && Qle_bool q (inject_Z hi)))
  | _ => Err InvalidOperationError
  end.

(** [when(c).then(a).otherwise(b)]: a null condition selects [b]. *)
Definition when_value (c a b : value) : result value :=
  match c with
  | VBool true => Ok a
  | VBool false | VNull => Ok b
  | _ => Err InvalidOperationError
  end.

(** [fill_null(fill)]: a null cell becomes [fill], another cell stays.
    This is the behaviour on a column of the dtype of [fill], as where the
    pipeline fills a String status with a String literal; on a column of
    another dtype polars also converts the cells that are not null, which
    is not shown here, so that the statements on filled cells below are
    made for null and for string cells. *)
Definition fill_null_value (fill v : value) : value :=
  match v with VNull => fill | _ => v end.

(** A calendar part of a temporal cell. *)
Definition dt_value (part : Z -> Z) (v : value) : result value :=
  match v with
  | VNull => Ok VNull
  | VDatetime u t => Ok (VInt (part (t / ticks_per_day u)))
  | VDate d => Ok (VInt (part d))
  | _ => Err InvalidOperationError
  end.

(** [// k]: floor division; an integer divided by zero is null. *)
Definition floordiv_value (k : Z) (v : value) : result value :=
  match v with
  | VNull => Ok VNull
  | VInt z => Ok (if k =? 0 then VNull else VInt (z / k))
  | VFloat q => Ok (VFloat (inject_Z (Qfloor (q / inject_Z k))))
  | _ => Err InvalidOperationError
  end.

Section Polars.
Context `{Host}.

(** Strict [cast]; null stays null.  The float of an integer is taken
    with the integer's value: this is what polars returns up to [2^53] in
    absolute value, the integers that binary64 holds exactly; a larger
    integer is rounded by polars to the nearest float, which the rational
    model of [Float64] does not show. *)
Definition cast_value (t : dtype) (v : value) : result value :=
  match t, v with
  | _, VNull => Ok VNull
  | Utf8, VStr s => Ok (VStr s)
  | Utf8, VInt z => Ok (VStr (pretty z))
  | Int64, VInt z => Ok (VInt z)
  | Int64, VBool b => Ok (VInt (if b then 1 else 0))
  | Int64, VDatetime _ t => Ok (VInt t)
  | Int64, VDate d => Ok (VInt d)
  | Float64, VInt z => Ok (VFloat (inject_Z z))
  | Float64, VFloat q => Ok (VFloat q)
  | _, _ =>
      match cast_other t v with
      | Some w => Ok w
      | None => Err InvalidOperationError
      end
  end.

Fixpoint eval (e : Expr) (r : gmap string value) : result value :=
  match e with
  | col name =>
      match r !! name with
      | Some v => Ok v
      | None => Err (ColumnNotFoundError name)
      end
  | lit v => Ok v
  | alias e _ => eval e r
  | cast e t => v ← eval e r; cast_value t v
  | fill_null e fill => v ← eval e r; Ok (fill_null_value fill v)
  | is_between e lo hi => v ← eval e r; between_value lo hi v
  | when_then_otherwise c a b =>
      vc ← eval c r; va ← eval a r; vb ← eval b r; when_value vc va vb
  | dt_year e => v ← eval e r; dt_value year_of_days v
  | dt_month e => v ← eval e r; dt_value month_of_days v
  | dt_day e => v ← eval e r; dt_value day_of_days v
  | dt_weekday e => v ← eval e r; dt_value weekday_of_days v
  | floordiv e k => v ← eval e r; floordiv_value k v
  end.

(** ** Frame operations *)

(** All expressions of one [with_columns] read the incoming row [r];
    their results are written into [acc]. *)
Fixpoint assign (exprs : list Expr) (r acc : gmap string value)
  : result (gmap string value) :=
  match exprs with
  | [] => Ok acc
  | e :: es => v ← eval e r; assign es r (<[output_name e := v]> acc)
  end.

Definition add_column (cs : list string) (name : string) : list string :=
  if decide (name ∈ cs) then cs else cs ++ [name].

Definition with_columns (exprs : list Expr) (df : DataFrame) : result DataFrame :=
  _ ← check_columns (exprs ≫= root_names) df;
  rs ← traverse (fun r => assign exprs r r) (rows df);
  Ok {| columns := foldl add_column (columns df) (output_name <$> exprs);
        rows := rs |}.

Definition project (names : list string) (r : gmap string value)
  : gmap string value :=
  foldr (fun c acc => match r !! c with Some v => <[c := v]> acc | None => acc end)
        ∅ names.

Definition select (names : list string) (df : DataFrame) : result DataFrame :=
  _ ← check_columns names df;
  Ok {| columns := names; rows := project names <$> rows df |}.

Definition null_at (r : gmap string value) (c : string) : bool :=
  match r !! c with Some VNull => true | _ => false end.

Definition has_null (subset : list string) (r : gmap string value) : bool :=
  existsb (null_at r) subset.

Definition drop_nulls (subset : list string) (df : DataFrame) : result DataFrame :=
  _ ← check_columns subset df;
  Ok {| columns := columns df;
        rows := filter (fun r => has_null subset r = false) (rows df) |}.

(** Inner join on one key column.  A column of [right] whose name is
    taken in [left] gets the suffix [_right].  The two key columns are
    taken to be of one dtype: polars refuses to join keys of different
    dtypes, a failure that has no counterpart here.  The matches are
    listed along the rows of [left]; polars does not promise an order. *)
Definition keys_match (a b : option value) : bool :=
  match a, b with
  | Some VNull, Some VNull => join_nulls
  | Some x, Some y => value_eqb x y
  | _, _ => false
  end.

Definition right_name (left : DataFrame) (c : string) : string :=
  if decide (c ∈ columns left) then c +:+ "_right" else c.

Definition merge_row (left : DataFrame) (extra : list string)
    (l r : gmap string value) : gmap string value :=
  foldl (fun acc c =>
           match r !! c with
           | Some v => <[right_name left c := v]> acc
           | None => acc
           end) l extra.

Definition join (left right : DataFrame) (on : string) : result DataFrame :=
  _ ← check_columns [on] left;
  _ ← check_columns [on] right;
  let extra := filter (fun c => c ≠ on) (columns right) in
  Ok {| columns := columns left ++ (right_name left <$> extra);
        rows := l ← rows left;
                r ← filter (fun r => keys_match (l !! on) (r !! on) = true)
                           (rows right);
                [merge_row left extra l r] |}.

End Polars.

(** ** Global state

    What [sample] touches outside its arguments: the state of Python's
    global random generator and the log sink. *)

Section World.
Context `{Host}.

Record world := {
  py_random : rng;
  sink : list string;
}.

Definition M (A : Type) : Type := world -> result A * world.

#[global] Instance M_ret : MRet M := fun A a w => (Ok a, w).
#[global] Instance M_bind : MBind M := fun A B f m w =>
  match m w with
  | (Ok a, w') => f a w'
  | (Err e, w') => (Err e, w')
  end.

Definition lift {A} (x : result A) : M A := fun w => (x, w).

(** [random.seed(a)] *)
Definition seed (a : Z) : M unit := fun w =>
  (Ok tt, {| py_random := random_seed a; sink := sink w |}).

(** [random.randint(a, b)] *)
Definition randint (a b : Z) : M Z := fun w =>
  let '(x, g) := random_randint a b (py_random w) in
  (Ok x, {| py_random := g; sink := sink w |}).

(** [logger.info(msg)] *)
Definition logger_info (msg : string) : M unit := fun w =>
  (Ok tt, {| py_random := py_random w; sink := sink w ++ [msg] |}).

(** [DataFrame.sample(n=n)] with the defaults [with_replacement=False],
    [shuffle=False], [seed=None]: polars' Python layer draws the seed
    from Python's global generator ([random.randint(0, 10000)]), then the
    engine refuses a sample larger than the frame and otherwise takes the
    rows at the drawn indices. *)
Definition DataFrame_sample (n : Z) (df : DataFrame) : M DataFrame :=
  s ← randint 0 10000;
  if height df <? n then lift (Err ShapeError)
  else
    mret {| columns := columns df;
            rows := omap (fun i => rows df !! i)
                         (rand_index s (Z.to_nat n) (length (rows df))) |}.

End World.

(** ** [recsys/features/customers.py] *)

(** Modelled from the spec: [recsys.config.CustomerDatasetSize] is
    imported by the source but its declaration is not part of it; the
    specification names three size classes. *)
Inductive CustomerDatasetSize := LARGE | MEDIUM | SMALL.

#[global] Instance CustomerDatasetSize_eq_dec : EqDecision CustomerDatasetSize.
Proof. solve_decision. Defined.

(** Lookup in a Python [dict] given by its items; a missing key raises
    [KeyError]. *)
Definition getitem {K V} `{EqDecision K} (d : list (K * V)) (k : K) : result V :=
  match list_find (fun kv => kv.1 = k) d with
  | Some (_, (_, v)) => Ok v
  | None => Err KeyError
  end.

Record SampledDataset := {
  customers : DataFrame;
  transactions : DataFrame;
}.

Module DatasetSampler.
Section Sampler.
Context `{Host}.

Definition _SIZES : list (CustomerDatasetSize * Z) :=
  [(LARGE, 50000); (MEDIUM, 5000); (SMALL, 1000)].

Record t := __init__ { _size : CustomerDatasetSize }.


Definition sample (self : t) (customers_df transaction_df : DataFrame)
  : M SampledDataset :=
  _ ← seed 42;
  n_customers ← lift (getitem _SIZES (_size self));
  _ ← logger_info ("Sampling " +:+ pretty n_customers +:+ " customers.");
  customers_df ← DataFrame_sample n_customers customers_df;
  _ ← logger_info ("Number of transactions for all the customers: "
                    +:+ pretty (height transaction_df));
  ids ← lift (select ["customer_id"] customers_df);
  transaction_df ← lift (join transaction_df ids "customer_id");
  _ ← logger_info ("Number of transactions for the " +:+ pretty n_customers
                    +:+ " sampled customers: "
                    +:+ pretty (height transaction_df));
  mret {| customers := customers_df; transactions := transaction_df |}.

End Sampler.
End DatasetSampler.

Section Features.
Context `{Host}.

Definition filling_missing_club_member_status (df : DataFrame) : result DataFrame :=
  with_columns [fill_null (col "club_member_status") (VStr "ABSENT")] df.

Definition drop_na_age (df : DataFrame) : result DataFrame :=
  drop_nulls ["age"] df.

Definition create_age_group : Expr :=
  alias
    (when_then_otherwise (is_between (col "age") 0 18) (lit (VStr "0-18"))
    (when_then_otherwise (is_between (col "age") 19 25) (lit (VStr "19-25"))
    (when_then_otherwise (is_between (col "age") 26 35) (lit (VStr "26-35"))
    (when_then_otherwise (is_between (col "age") 36 45) (lit (VStr "36-45"))
    (when_then_otherwise (is_between (col "age") 46 55) (lit (VStr "46-55"))
    (when_then_otherwise (is_between (col "age") 56 65) (lit (VStr "56-65"))
    (lit (VStr "66+"))))))))
    "age_group".

(** The label [create_age_group] gives to an age cell. *)
Definition age_group_of (a : value) : result value :=
  eval create_age_group {["age" := a]}.

Definition required_columns : list string :=
  ["customer_id"; "club_member_status"; "age"; "postal_code"].

Definition compute_features_customers (df : DataFrame) (drop_null_age : bool)
  : result DataFrame :=
  let missing_columns := filter (fun c => c ∉ columns df) required_columns in
  if bool_decide (missing_columns ≠ []) then
    Err (ValueError ("Columns " +:+ String.concat ", " missing_columns
                     +:+ " not found in the DataFrame"))
  else
    df ← filling_missing_club_member_status df;
    df ← drop_na_age df;
    df ← with_columns [create_age_group; cast (col "age") Float64] df;
    df ← select ["customer_id"; "club_member_status"; "age"; "postal_code";
                 "age_group"] df;
    if drop_null_age then drop_nulls ["age"] df else Ok df.

(** ** [recsys/features/transactions.py]

    [month_sin], [month_cos] and [calculate_month_sin_cos] compute
    [numpy.sin] and [numpy.cos] on binary64 floats and
    [convert_t_dat_to_datetime] parses through pandas; they are not
    embedded. *)

(** A column computed from a frame as a [pl.Series]. *)
Definition series (e : Expr) (df : DataFrame) : result (list value) :=
  _ ← check_columns (root_names e) df;
  traverse (eval e) (rows df).

Definition convert_article_id_to_str (df : DataFrame) : result (list value) :=
  series (cast (col "article_id") Utf8) df.

Definition get_year_feature (df : DataFrame) : result (list value) :=
  series (dt_year (col "t_dat")) df.

Definition get_month_feature (df : DataFrame) : result (list value) :=
  series (dt_month (col "t_dat")) df.

Definition get_day_feature (df : DataFrame) : result (list value) :=
  series (dt_day (col "t_dat")) df.

Definition get_day_of_week_feature (df : DataFrame) : result (list value) :=
  series (dt_weekday (col "t_dat")) df.

Definition convert_t_dat_to_epoch_millisecond (df : DataFrame) : result (list value) :=
  series (floordiv (cast (col "t_dat") Int64) 1000000) df.

Definition compute_features_transactions (df : DataFrame) : result DataFrame :=
  df ← with_columns [alias (cast (col "article_id") Utf8) "article_id"] df;
  df ← with_columns [alias (dt_year (col "t_dat")) "year";
                     alias (dt_month (col "t_dat")) "month";
                     alias (dt_day (col "t_dat")) "day";
                     alias (dt_weekday (col "t_dat")) "day_of_week"] df;
  with_columns [alias (floordiv (cast (col "t_dat") Int64) 1000000) "t_dat"] df.

End Features.

(** ** The specification's notions *)

(** Glossary, "Epoch-millisecond": the integer count of milliseconds
    since 1970-01-01 00:00:00 UTC of a temporal cell. *)
Definition spec_epoch_millisecond (v : value) : option Z :=
  match v with
  | VDatetime u t => Some (t / ticks_per_ms u)
  | VDate d => Some (d * 86400000)
  | _ => None
  end.

(** Data model, "AgeGroup": the seven labels, and the range of ages
    each label names (for ["66+"], the ages from 66 on). *)
Definition age_groups : list string :=
  ["0-18"; "19-25"; "26-35"; "36-45"; "46-55"; "56-65"; "66+"].

Definition spec_in_age_group (g : string) (a : Q) : Prop :=
  (g = "0-18" /\ 0 <= a <= 18)%Q \/
  (g = "19-25" /\ 19 <= a <= 25)%Q \/
  (g = "26-35" /\ 26 <= a <= 35)%Q \/
  (g = "36-45" /\ 36 <= a <= 45)%Q \/
  (g = "46-55" /\ 46 <= a <= 55)%Q \/
  (g = "56-65" /\ 56 <= a <= 65)%Q \/
  (g = "66+" /\ 66 <= a)%Q.

(** The numeric value of an age cell. *)
Definition age_value (v : value) : option Q :=
  match v with
  | VInt z => Some (inject_Z z)
  | VFloat q => Some q
  | _ => None
  end.

(** The binning rule in full: the six closed ranges in their order, and
    ["66+"] for any age from 66 on or not matching an earlier range. *)
Definition in_earlier_range (a : Q) : Prop :=
  (0 <= a <= 18)%Q \/ (19 <= a <= 25)%Q \/ (26 <= a <= 35)%Q \/
  (36 <= a <= 45)%Q \/ (46 <= a <= 55)%Q \/ (56 <= a <= 65)%Q.

Definition age_group_rule (g : string) (a : Q) : Prop :=
  (g = "0-18" /\ 0 <= a <= 18)%Q \/
  (g = "19-25" /\ 19 <= a <= 25)%Q \/
  (g = "26-35" /\ 26 <= a <= 35)%Q \/
  (g = "36-45" /\ 36 <= a <= 45)%Q \/
  (g = "46-55" /\ 46 <= a <= 55)%Q \/
  (g = "56-65" /\ 56 <= a <= 65)%Q \/
  (g = "66+" /\ ((66 <= a)%Q \/ ~ in_earlier_range a)).

(** ** A concrete host

    A linear congruential generator for Python's [random] and a rotation
    of the row indices for the draw: enough to run the pipelines on
    concrete tables. *)

Definition demo_randint (a b g : Z) : Z * Z :=
  let g' := (g * 1103515245 + 12345) mod 2147483648 in
  (a + g' mod (b - a + 1), g').

Definition demo_rand_index (s : Z) (n len : nat) : list nat :=
  if (n <=? len)%nat
  then (fun i => ((Z.to_nat s + i) mod len)%nat) <$> seq 0 n
  else [].

Definition demo_rand_index_length s n len :
  (n <= len)%nat -> length (demo_rand_index s n len) = n.
Proof.
  intros Hn. unfold demo_rand_index.
  destruct (Nat.leb_spec n len); [|lia].
  by rewrite length_fmap, length_seq.
Qed.

Definition demo_rand_index_bound s n len :
  Forall (fun i => (i < len)%nat) (demo_rand_index s n len).
Proof.
  unfold demo_rand_index. destruct (Nat.leb_spec n len); [|constructor].
  apply Forall_fmap, Forall_forall. intros i Hi. simpl.
  apply elem_of_seq in Hi. apply Nat.mod_upper_bound. lia.
Qed.

Definition demo_rand_index_NoDup s n len : NoDup (demo_rand_index s n len).
Proof.
  unfold demo_rand_index. destruct (Nat.leb_spec n len); [|constructor].
  apply NoDup_fmap_2_strong; [|apply NoDup_seq].
  intros i j Hi Hj Heq. apply elem_of_seq in Hi, Hj.
  assert (Hlen : len <> 0%nat) by lia.
  pose proof (Nat.div_mod (Z.to_nat s + i) len Hlen) as Di.
  pose proof (Nat.div_mod (Z.to_nat s + j) len Hlen) as Dj.
  pose proof (Nat.mod_upper_bound (Z.to_nat s + i) len Hlen) as Bi.
  rewrite Heq in Di.
  set (qi := ((Z.to_nat s + i) / len)%nat) in *.
  set (qj := ((Z.to_nat s + j) / len)%nat) in *.
  set (m := ((Z.to_nat s + j) mod len)%nat) in *.
  destruct (Nat.lt_trichotomy qi qj) as [Hq|[Hq|Hq]]; nia.
Qed.

Definition demo_host : Host := {|
  rng := Z;
  random_seed := fun a => a;
  random_randint := demo_randint;
  rand_index := demo_rand_index;
  rand_index_length := demo_rand_index_length;
  rand_index_bound := demo_rand_index_bound;
  rand_index_NoDup := demo_rand_index_NoDup;
  join_nulls := false;
  cast_other := fun _ _ => None;
|}.

(** ** Concrete tables *)

Definition customer_row (id : string) (status age : value)
  : gmap string value :=
  {[ "customer_id" := VStr id; "club_member_status" := status;
     "age" := age; "postal_code" := VStr "4ae5a96d" ]}.

Definition transaction_row (id : value) (article t_dat : value)
  : gmap string value :=
  {[ "customer_id" := id; "article_id" := article; "t_dat" := t_dat ]}.

(** The specification's end-to-end scenario: ages [10, null, 70],
    statuses [null, "ACTIVE", "ACTIVE"]. *)
Definition scenario_customers : DataFrame :=
  {| columns := ["customer_id"; "club_member_status"; "age"; "postal_code"];
     rows := [customer_row "c0" VNull (VInt 10);
              customer_row "c1" (VStr "ACTIVE") VNull;
              customer_row "c2" (VStr "ACTIVE") (VFloat (70 # 1))] |}.

(** One customer aged 18.5. *)
Definition fractional_age_customers : DataFrame :=
  {| columns := ["customer_id"; "club_member_status"; "age"; "postal_code"];
     rows := [customer_row "c0" (VStr "ACTIVE") (VFloat (37 # 2))] |}.

(** One transaction of 2020-01-15 00:00:00, stored in microseconds (the
    time unit polars gives a [Datetime] by default), and the same instant
    stored in nanoseconds (the unit of a timestamp that went through
    pandas). *)
Definition microsecond_transactions : DataFrame :=
  {| columns := ["customer_id"; "article_id"; "t_dat"];
     rows := [transaction_row (VStr "c0") (VInt 108775015)
                              (VDatetime us 1579046400000000)] |}.

Definition nanosecond_transactions : DataFrame :=
  {| columns := ["customer_id"; "article_id"; "t_dat"];
     rows := [transaction_row (VStr "c0") (VInt 108775015)
                              (VDatetime ns 1579046400000000000)] |}.

(** A population of 1003 customers, four transactions (one of a customer
    that is not in the population, one without a customer), and a world to
    run [sample] in. *)
Definition demo_population : DataFrame :=
  {| columns := ["customer_id"; "club_member_status"; "age"; "postal_code"];
     rows := (fun i : nat => customer_row (pretty i) VNull (VInt (Z.of_nat i)))
               <$> seq 0 1003 |}.

Definition demo_transactions : DataFrame :=
  {| columns := ["customer_id"; "article_id"; "t_dat"];
     rows := [transaction_row (VStr "5") (VInt 108775015) (VDate 18276);
              transaction_row (VStr "1002") (VInt 108775044) (VDate 18277);
              transaction_row (VStr "stranger") (VInt 108775051) (VDate 18278);
              transaction_row VNull (VInt 110065001) (VDate 18279)] |}.

Definition demo_world : @world demo_host := @Build_world demo_host 7 [].

Definition demo_sampled : SampledDataset :=
  match (DatasetSampler.sample (DatasetSampler.__init__ SMALL)
           demo_population demo_transactions demo_world).1 with
  | Ok out => out
  | Err _ => {| customers := demo_population; transactions := demo_transactions |}
  end.

(** The tables the pipelines return on the concrete tables above. *)
Definition scenario_features : DataFrame :=
  match compute_features_customers (H := demo_host) scenario_customers false with
  | Ok out => out
  | Err _ => scenario_customers
  end.

Definition demo_transaction_features : DataFrame :=
  match compute_features_transactions (H := demo_host) demo_transactions with
  | Ok out => out
  | Err _ => demo_transactions
  end.

(** ** Notions used by the further properties *)

(** The errors that come from polars, as opposed to the [ValueError] the
    source raises itself. *)
Definition polars_error (e : error) : Prop :=
  e = InvalidOperationError \/ exists c, e = ColumnNotFoundError c.

(** The columns [compute_features_customers] selects, in its order. *)
Definition customer_feature_columns : list string :=
  ["customer_id"; "club_member_status"; "age"; "postal_code"; "age_group"].

(** The cells of a column, row by row ([None] where a row has no cell). *)
Definition column (name : string) (df : DataFrame) : list (option value) :=
  (fun r : gmap string value => r !! name) <$> rows df.

Definition is_str (v : option value) : bool :=
  match v with Some (VStr _) => true | _ => false end.

#[global] Instance TimeUnit_eq_dec : EqDecision TimeUnit.
Proof. solve_decision. Defined.
#[global] Instance Q_eq_dec : EqDecision Q.
Proof. solve_decision. Defined.
#[global] Instance value_eq_dec : EqDecision value.
Proof. solve_decision. Defined.

(** A customer table without status and postal code. *)
Definition incomplete_customers : DataFrame :=
  {| columns := ["age"; "customer_id"];
     rows := [{[ "age" := VInt 30; "customer_id" := VStr "c0" ]}] |}.

(** The scenario after its first step, and after its first two steps. *)
Definition scenario_filled : DataFrame :=
  match filling_missing_club_member_status (H := demo_host) scenario_customers with
  | Ok out => out
  | Err _ => scenario_customers
  end.

Definition scenario_filled_dropped : DataFrame :=
  match drop_na_age scenario_filled with
  | Ok out => out
  | Err _ => scenario_filled
  end.

(** Transactions without a customer column. *)
Definition anonymous_transactions : DataFrame :=
  {| columns := ["article_id"; "t_dat"];
     rows := [{[ "article_id" := VInt 108775015; "t_dat" := VDate 18276 ]}] |}.

(** The world [sample] leaves behind on the demo tables. *)
Definition demo_sampled_world : @world demo_host :=
  (DatasetSampler.sample (DatasetSampler.__init__ SMALL)
     demo_population demo_transactions demo_world).2.

(** ** Auxiliary facts about the frame model *)

Lemma traverse_Forall2 {A B} (f : A -> result B) l l' :
  traverse f l = Ok l' -> Forall2 (fun x y => f x = Ok y) l l'.
Proof.
  revert l'. induction l as [|x l IH]; intros l' Hl; simpl in Hl.
  - injection Hl as <-. constructor.
  - destruct (f x) as [y|e] eqn:Hx; simpl in Hl; [|discriminate].
    destruct (traverse f l) as [ys|e] eqn:Hys; simpl in Hl; [|discriminate].
    injection Hl as <-. constructor; auto.
Qed.

Lemma traverse_total {A B} (f : A -> result B) l :
  Forall (fun x => exists y, f x = Ok y) l -> exists l', traverse f l = Ok l'.
Proof.
  induction 1 as [|x l [y Hy] _ [ys Hys]]; simpl.
  - eauto.
  - rewrite Hy; simpl. rewrite Hys; simpl. eauto.
Qed.

Lemma traverse_length {A B} (f : A -> result B) l l' :
  traverse f l = Ok l' -> length l' = length l.
Proof.
  intros Hl. symmetry. eapply Forall2_length, traverse_Forall2, Hl.
Qed.

Lemma check_columns_Ok names df :
  check_columns names df = Ok tt <-> Forall (fun c => c ∈ columns df) names.
Proof.
  unfold check_columns, missing_column.
  induction names as [|c names IH]; simpl.
  - split; auto.
  - rewrite filter_cons. case_decide as Hc; simpl.
    + split; [discriminate|]. intros Hall. inversion Hall; subst. contradiction.
    + rewrite IH. split.
      * intros Hall. constructor; [|done].
        destruct (decide (c ∈ columns df)); [done|contradiction].
      * intros Hall. by inversion Hall.
Qed.

Lemma check_columns_inv names df u :
  check_columns names df = Ok u -> Forall (fun c => c ∈ columns df) names.
Proof. destruct u. apply check_columns_Ok. Qed.

Lemma Forall2_with_l {A B} (Q : A -> Prop) (R : A -> B -> Prop) l k :
  Forall Q l -> Forall2 R l k -> Forall2 (fun x y => Q x /\ R x y) l k.
Proof.
  intros HQ HR. induction HR as [|x y l k Hxy _ IH]; [constructor|].
  inversion HQ; subst. constructor; auto.
Qed.

Lemma Forall2_compose {A B C} (P : A -> B -> Prop) (Q : B -> C -> Prop) l k m :
  Forall2 P l k -> Forall2 Q k m ->
  Forall2 (fun x z => exists y, P x y /\ Q y z) l m.
Proof. intros HP HQ. eapply Forall2_trans; [|exact HP|exact HQ]. eauto. Qed.

Lemma Forall2_Forall_transfer {A B} (R : A -> B -> Prop)
    (P : A -> Prop) (Q : B -> Prop) l k :
  (forall x y, R x y -> P x -> Q y) ->
  Forall2 R l k -> Forall P l -> Forall Q k.
Proof.
  intros HRQ HR. induction HR as [|x y l k Hxy _ IH]; [constructor|].
  intros HP. inversion HP; subst. constructor; eauto.
Qed.

Lemma filter_absent_nil (names cs : list string) :
  Forall (fun c => c ∈ cs) names -> filter (fun c => c ∉ cs) names = [].
Proof.
  induction 1 as [|c names Hc _ IH]; [done|].
  rewrite filter_cons. by destruct (decide (c ∉ cs)).
Qed.

Lemma Forall_filter_self {A} (Q : A -> Prop) `{forall x, Decision (Q x)} l :
  Forall Q (filter Q l).
Proof. apply Forall_forall. intros x Hx. by apply list_elem_of_filter in Hx as [? _]. Qed.

(** Membership in a list given by its elements. *)
Ltac elem_of_list :=
  solve [repeat first [apply list_elem_of_here | apply list_elem_of_further]].

(** Look a column up in a row built by successive assignments. *)
Ltac row_lookup :=
  repeat first [rewrite lookup_insert_eq | rewrite lookup_insert_ne by done].

Tactic Notation "row_lookup" "in" hyp(H) :=
  repeat first [rewrite lookup_insert_eq in H
               |rewrite lookup_insert_ne in H by done].

Section FrameFacts.
Context `{Host}.

Lemma with_columns_inv exprs df df' :
  with_columns exprs df = Ok df' ->
  Forall (fun c => c ∈ columns df) (exprs ≫= root_names) /\
  columns df' = foldl add_column (columns df) (output_name <$> exprs) /\
  Forall2 (fun r r' => assign exprs r r = Ok r') (rows df) (rows df').
Proof.
  unfold with_columns. intros Hw.
  destruct (check_columns _ df) as [u|e] eqn:Hc; simpl in Hw; [|discriminate].
  destruct (traverse _ (rows df)) as [rs|e] eqn:Hrs; simpl in Hw; [|discriminate].
  injection Hw as <-. simpl.
  eauto using check_columns_inv, traverse_Forall2.
Qed.

Lemma with_columns_total exprs df :
  Forall (fun c => c ∈ columns df) (exprs ≫= root_names) ->
  Forall (fun r => exists r', assign exprs r r = Ok r') (rows df) ->
  exists rs, with_columns exprs df
             = Ok {| columns := foldl add_column (columns df) (output_name <$> exprs);
                     rows := rs |}.
Proof.
  intros Hc Hrows. unfold with_columns.
  apply check_columns_Ok in Hc. rewrite Hc. simpl.
  destruct (traverse_total _ _ Hrows) as [rs Hrs]. rewrite Hrs. simpl. eauto.
Qed.

Lemma select_inv names df df' :
  select names df = Ok df' ->
  Forall (fun c => c ∈ columns df) names /\
  df' = {| columns := names; rows := project names <$> rows df |}.
Proof.
  unfold select. intros Hs.
  destruct (check_columns names df) as [u|e] eqn:Hc; simpl in Hs; [|discriminate].
  injection Hs as <-. eauto using check_columns_inv.
Qed.

Lemma drop_nulls_inv subset df df' :
  drop_nulls subset df = Ok df' ->
  Forall (fun c => c ∈ columns df) subset /\
  df' = {| columns := columns df;
           rows := filter (fun r => has_null subset r = false) (rows df) |}.
Proof.
  unfold drop_nulls. intros Hs.
  destruct (check_columns subset df) as [u|e] eqn:Hc; simpl in Hs; [|discriminate].
  injection Hs as <-. eauto using check_columns_inv.
Qed.

Lemma project_lookup names r c :
  project names r !! c = if decide (c ∈ names) then r !! c else None.
Proof.
  unfold project. induction names as [|n names IH].
  - rewrite decide_False by apply not_elem_of_nil. apply lookup_empty.
  - cbn [foldr]. destruct (decide (c = n)) as [->|Hne].
    + rewrite decide_True by apply list_elem_of_here.
      destruct (r !! n) as [v|] eqn:Hn.
      * by rewrite lookup_insert_eq.
      * rewrite IH. by case_decide.
    + assert (r_eq : (if decide (c ∈ n :: names) then r !! c else None)
                     = (if decide (c ∈ names) then r !! c else None)).
      { destruct (decide (c ∈ n :: names)) as [Hin|Hin],
          (decide (c ∈ names)) as [Hin'|Hin']; try done.
        - by apply elem_of_cons in Hin as [?|?].
        - exfalso. apply Hin. by apply list_elem_of_further. }
      rewrite r_eq, <- IH.
      destruct (r !! n); [by rewrite lookup_insert_ne|done].
Qed.

Lemma add_column_elem c cs name : c ∈ cs -> c ∈ add_column cs name.
Proof.
  unfold add_column. intros Hc. case_decide; [done|].
  apply elem_of_app. by left.
Qed.

Lemma foldl_add_column_elem c cs names :
  c ∈ cs -> c ∈ foldl add_column cs names.
Proof.
  revert cs. induction names as [|n names IH]; intros cs Hc; [done|].
  cbn [foldl]. by apply IH, add_column_elem.
Qed.

Lemma foldl_add_column_new cs names name :
  name ∈ names -> name ∈ foldl add_column cs names.
Proof.
  revert cs. induction names as [|n names IH]; intros cs Hn.
  - by apply elem_of_nil in Hn.
  - cbn [foldl]. apply elem_of_cons in Hn as [->|Hn]; [|by apply IH].
    apply foldl_add_column_elem. unfold add_column.
    case_decide; [done|]. apply elem_of_app. right. elem_of_list.
Qed.

(** Dropping nulls from a frame whose rows have none changes nothing. *)
Lemma drop_nulls_id subset df :
  Forall (fun c => c ∈ columns df) subset ->
  Forall (fun r => has_null subset r = false) (rows df) ->
  drop_nulls subset df = Ok df.
Proof.
  intros Hc Hr. unfold drop_nulls.
  apply check_columns_Ok in Hc. rewrite Hc. simpl.
  destruct df as [cs rs]; simpl in *. do 2 f_equal. clear Hc.
  induction Hr as [|r rs Hr _ IH]; [done|].
  rewrite filter_cons. destruct (decide (has_null subset r = false)); [|done].
  by f_equal.
Qed.

End FrameFacts.

(** ** Facts about the customer pipeline *)

Section CustomerFacts.
Context `{Host}.

Lemma eval_create_age_group r a :
  r !! "age" = Some a -> eval create_age_group r = age_group_of a.
Proof.
  intros Hr. unfold age_group_of, create_age_group. cbn [eval].
  by rewrite Hr, lookup_singleton_eq.
Qed.

(** Unfold the binning expression on a given cell down to its range
    tests. *)
Ltac age_unfold :=
  unfold age_group_of, create_age_group; cbn [eval];
  rewrite !lookup_singleton_eq; unfold mbind, result_bind;
  cbn [between_value when_value].

Ltac split_ranges :=
  repeat match goal with
         | |- context [(?x <=? ?y) && ?b] => destruct ((x <=? y) && b)
         | |- context [Qle_bool ?x ?y && ?b] => destruct (Qle_bool x y && b)
         end.

(** The binning expression never yields null and only accepts numeric
    (or null) ages. *)
Lemma age_group_of_inv a g :
  age_group_of a = Ok g ->
  (exists s, g = VStr s /\ s ∈ age_groups) /\
  (a = VNull \/ (exists z, a = VInt z) \/ (exists q, a = VFloat q)).
Proof.
  unfold age_groups. destruct a; age_unfold; try discriminate;
    intros Hg; (split; [|by eauto]); revert Hg; split_ranges;
    intros [= <-]; (eexists; split; [done|elem_of_list]).
Qed.

Lemma age_group_of_total a :
  a = VNull \/ (exists z, a = VInt z) \/ (exists q, a = VFloat q) ->
  exists s, age_group_of a = Ok (VStr s).
Proof.
  intros [->|[[z ->]|[q ->]]]; age_unfold; split_ranges; eauto.
Qed.

Lemma assign_fill_status r r1 :
  assign [fill_null (col "club_member_status") (VStr "ABSENT")] r r = Ok r1 ->
  exists st, r !! "club_member_status" = Some st /\
    r1 = <["club_member_status" := fill_null_value (VStr "ABSENT") st]> r.
Proof.
  cbn [assign eval output_name]. intros Hr.
  destruct (r !! "club_member_status") as [st|]; [|discriminate].
  injection Hr as <-. eauto.
Qed.

Lemma assign_age_columns r r3 :
  assign [create_age_group; cast (col "age") Float64] r r = Ok r3 ->
  exists a g f, r !! "age" = Some a /\ age_group_of a = Ok g /\
    cast_value Float64 a = Ok f /\
    r3 = <["age" := f]> (<["age_group" := g]> r).
Proof.
  cbn [assign]. intros Hr.
  destruct (r !! "age") as [a|] eqn:Ha.
  - rewrite (eval_create_age_group r a Ha) in Hr.
    destruct (age_group_of a) as [g|] eqn:Hg; [|discriminate].
    cbn [eval mbind result_bind output_name create_age_group] in Hr.
    rewrite Ha in Hr. cbn [mbind result_bind] in Hr.
    destruct (cast_value Float64 a) as [f|] eqn:Hf; [|discriminate].
    injection Hr as <-. eauto 10.
  - exfalso. revert Hr. unfold create_age_group. cbn [eval].
    rewrite Ha. discriminate.
Qed.

(** What the four steps before the optional second drop do to the rows:
    the rows with a non-null age are kept, in order, each with its status
    filled, its label and its age as a float, and projected. *)
Lemma customers_steps df d1 d2 d3 d4 :
  filling_missing_club_member_status df = Ok d1 ->
  drop_na_age d1 = Ok d2 ->
  with_columns [create_age_group; cast (col "age") Float64] d2 = Ok d3 ->
  select ["customer_id"; "club_member_status"; "age"; "postal_code";
          "age_group"] d3 = Ok d4 ->
  columns d4 = ["customer_id"; "club_member_status"; "age"; "postal_code";
                "age_group"] /\
  Forall2 (fun r r' => exists st a g f,
             r !! "club_member_status" = Some st /\
             r !! "age" = Some a /\ a <> VNull /\
             age_group_of a = Ok g /\ cast_value Float64 a = Ok f /\
             r' = project ["customer_id"; "club_member_status"; "age";
                           "postal_code"; "age_group"]
                    (<["age" := f]> (<["age_group" := g]>
                      (<["club_member_status" :=
                           fill_null_value (VStr "ABSENT") st]> r))))
          (filter (fun r => null_at r "age" = false) (rows df)) (rows d4).
Proof.
  intros H1 H2 H3 H4.
  apply with_columns_inv in H1 as (_ & _ & H1).
  apply drop_nulls_inv in H2 as (_ & ->).
  apply with_columns_inv in H3 as (_ & _ & H3).
  apply select_inv in H4 as (_ & ->). cbn [columns rows] in *.
  split; [done|]. apply Forall2_fmap_r.
  apply (Forall2_with_l _ _ _ _ (Forall_filter_self _ _)) in H3.
  eapply Forall2_trans; [|eapply Forall2_filter, H1|exact H3].
  - cbn beta. intros r r1 r3 Hr1 [Hnull Hr3].
    apply assign_fill_status in Hr1 as (st & Hst & ->).
    apply assign_age_columns in Hr3 as (a & g & f & Ha & Hg & Hf & ->).
    exists st, a, g, f. repeat split; try done.
    + by rewrite lookup_insert_ne in Ha.
    + intros ->. unfold has_null, null_at in Hnull. cbn [existsb] in Hnull.
      by rewrite Ha in Hnull.
  - cbn beta. intros r r1 Hr1.
    apply assign_fill_status in Hr1 as (st & Hst & ->).
    unfold has_null, null_at. cbn [existsb].
    by rewrite lookup_insert_ne, orb_false_r.
Qed.

Lemma cast_float64_numeric a f :
  a <> VNull ->
  (a = VNull \/ (exists z, a = VInt z) \/ (exists q, a = VFloat q)) ->
  cast_value Float64 a = Ok f -> exists q, f = VFloat q.
Proof.
  intros Hnn [->|[[z ->]|[q ->]]] Hf; [done| |]; cbn in Hf;
    injection Hf as <-; eauto.
Qed.

(** After the four steps no row has a null age. *)
Lemma customers_steps_age_not_null df d1 d2 d3 d4 :
  filling_missing_club_member_status df = Ok d1 ->
  drop_na_age d1 = Ok d2 ->
  with_columns [create_age_group; cast (col "age") Float64] d2 = Ok d3 ->
  select ["customer_id"; "club_member_status"; "age"; "postal_code";
          "age_group"] d3 = Ok d4 ->
  Forall (fun r' => has_null ["age"] r' = false) (rows d4).
Proof.
  intros H1 H2 H3 H4.
  destruct (customers_steps _ _ _ _ _ H1 H2 H3 H4) as [_ Hrows].
  induction Hrows as [|r r' l l' Hr _ IH]; constructor; [|done].
  destruct Hr as (st & a & g & f & _ & _ & Hnn & Hg & Hf & ->).
  apply age_group_of_inv in Hg as [_ Hnum].
  destruct (cast_float64_numeric _ _ Hnn Hnum Hf) as [q ->].
  unfold has_null, null_at. cbn [existsb].
  by rewrite project_lookup, decide_True, lookup_insert_eq by elem_of_list.
Qed.

(** The optional second drop finds nothing to drop. *)
Lemma customers_second_drop_id df d1 d2 d3 d4 :
  filling_missing_club_member_status df = Ok d1 ->
  drop_na_age d1 = Ok d2 ->
  with_columns [create_age_group; cast (col "age") Float64] d2 = Ok d3 ->
  select ["customer_id"; "club_member_status"; "age"; "postal_code";
          "age_group"] d3 = Ok d4 ->
  drop_nulls ["age"] d4 = Ok d4.
Proof.
  intros H1 H2 H3 H4. apply drop_nulls_id.
  - destruct (customers_steps _ _ _ _ _ H1 H2 H3 H4) as [-> _].
    repeat constructor; elem_of_list.
  - eapply customers_steps_age_not_null; eauto.
Qed.

(** A successful run, with the flag set or cleared, is a successful run
    of the validation and of the four steps. *)
Lemma compute_features_customers_steps df drop_null_age out :
  compute_features_customers df drop_null_age = Ok out <->
  filter (fun c => c ∉ columns df) required_columns = [] /\
  exists d1 d2 d3,
    filling_missing_club_member_status df = Ok d1 /\
    drop_na_age d1 = Ok d2 /\
    with_columns [create_age_group; cast (col "age") Float64] d2 = Ok d3 /\
    select ["customer_id"; "club_member_status"; "age"; "postal_code";
            "age_group"] d3 = Ok out.
Proof.
  unfold compute_features_customers. split.
  - case_bool_decide as Hm; [done|].
    destruct (filling_missing_club_member_status df) as [d1|] eqn:H1; [|done].
    cbn [mbind result_bind].
    destruct (drop_na_age d1) as [d2|] eqn:H2; [|done].
    cbn [mbind result_bind].
    destruct (with_columns _ d2) as [d3|] eqn:H3; [|done].
    cbn [mbind result_bind].
    destruct (select _ d3) as [d4|] eqn:H4; [|done].
    cbn [mbind result_bind].
    rewrite (customers_second_drop_id _ _ _ _ _ H1 H2 H3 H4).
    intros Hout. split; [done|]. exists d1, d2, d3.
    repeat split; try done. by destruct drop_null_age; injection Hout as <-.
  - intros (Hm & d1 & d2 & d3 & H1 & H2 & H3 & H4).
    rewrite Hm, bool_decide_false by (by intros []).
    rewrite H1. cbn [mbind result_bind]. rewrite H2. cbn [mbind result_bind].
    rewrite H3. cbn [mbind result_bind]. rewrite H4. cbn [mbind result_bind].
    rewrite (customers_second_drop_id _ _ _ _ _ H1 H2 H3 H4).
    by destruct drop_null_age.
Qed.

(** C9. The [drop_null_age] flag is a no-op: on every input table
    [compute_features_customers] returns the same result (the same table,
    or the same error) with the flag set and with it cleared, because the
    rows with a null age are already removed by the unconditional
    [drop_na_age] step and the cast to [Float64] makes no age null. *)
Theorem drop_null_age_flag_is_noop (df : DataFrame) :
  compute_features_customers df true = compute_features_customers df false.
Proof.
  unfold compute_features_customers.
  case_bool_decide; [done|].
  destruct (filling_missing_club_member_status df) as [d1|] eqn:H1; [|done].
  cbn [mbind result_bind].
  destruct (drop_na_age d1) as [d2|] eqn:H2; [|done].
  cbn [mbind result_bind].
  destruct (with_columns _ d2) as [d3|] eqn:H3; [|done].
  cbn [mbind result_bind].
  destruct (select _ d3) as [d4|] eqn:H4; [|done].
  cbn [mbind result_bind].
  eapply customers_second_drop_id; eauto.
Qed.

(** On a table that has the required columns, a status cell in every row
    and numeric or null ages, [compute_features_customers] returns a
    table. *)
Lemma compute_features_customers_total df drop_null_age :
  Forall (fun c => c ∈ columns df) required_columns ->
  Forall (fun r => is_Some (r !! "club_member_status") /\
                   exists a, r !! "age" = Some a /\
                     (a = VNull \/ (exists z, a = VInt z) \/
                      (exists q, a = VFloat q))) (rows df) ->
  exists out, compute_features_customers df drop_null_age = Ok out.
Proof.
  intros Hcols Hrows.
  assert (Hin : forall c, c ∈ required_columns -> c ∈ columns df).
  { by apply Forall_forall. }
  destruct (with_columns_total
              [fill_null (col "club_member_status") (VStr "ABSENT")] df)
    as [rs1 H1].
  { repeat constructor. apply Hin. unfold required_columns. elem_of_list. }
  { eapply Forall_impl; [exact Hrows|]. intros r [[st Hst] _].
    cbn [assign eval output_name]. rewrite Hst. cbn. eauto. }
  pose proof H1 as (_ & _ & Hrs1)%with_columns_inv. cbn [rows] in Hrs1.
  set (d1 := {| columns := _; rows := rs1 |}) in *.
  assert (Hin1 : forall c, c ∈ required_columns -> c ∈ columns d1).
  { intros c Hc. apply foldl_add_column_elem. auto. }
  set (d2 := {| columns := columns d1;
                rows := filter (fun r => has_null ["age"] r = false)
                               (rows d1) |}).
  assert (H2 : drop_na_age d1 = Ok d2).
  { unfold drop_na_age, drop_nulls.
    assert (Hc2 : check_columns ["age"] d1 = Ok tt).
    { apply check_columns_Ok. repeat constructor. apply Hin1.
      unfold required_columns. elem_of_list. }
    by rewrite Hc2. }
  destruct (with_columns_total
              [create_age_group; cast (col "age") Float64] d2) as [rs3 H3].
  { cbn. repeat constructor; apply Hin1; unfold required_columns;
      elem_of_list. }
  { subst d2. cbn [rows]. apply Forall_forall. intros r1 Hr1.
    apply list_elem_of_filter in Hr1 as [Hnn Hr1].
    assert (Hall : Forall (fun r1 : gmap string value =>
                   exists a, r1 !! "age" = Some a /\
                     (a = VNull \/ (exists z, a = VInt z) \/
                      (exists q, a = VFloat q))) rs1).
    { eapply Forall2_Forall_transfer; [|exact Hrs1|exact Hrows].
      cbn beta. intros r r' Hr' (_ & a & Ha & Hnum).
      apply assign_fill_status in Hr' as (st & _ & ->).
      exists a. by rewrite lookup_insert_ne. }
    rewrite Forall_forall in Hall.
    destruct (Hall r1 Hr1) as (a & Ha & Hnum).
    assert (Hnull : a <> VNull).
    { intros ->. unfold has_null, null_at in Hnn. cbn [existsb] in Hnn.
      by rewrite Ha in Hnn. }
    destruct (age_group_of_total a Hnum) as [g Hg].
    cbn [assign]. rewrite (eval_create_age_group _ _ Ha), Hg.
    cbn [mbind result_bind eval]. rewrite Ha. cbn [mbind result_bind].
    destruct Hnum as [->|[[z ->]|[q ->]]]; [done| |]; cbn; eauto. }
  set (d3 := {| columns := _; rows := rs3 |}) in *.
  eexists. apply compute_features_customers_steps.
  split; [by apply filter_absent_nil|].
  exists d1, d2, d3. repeat split; try done.
  unfold select.
  match goal with
  | |- context [check_columns ?names ?d] =>
      assert (Hc4 : check_columns names d = Ok tt)
  end.
  { apply check_columns_Ok. cbn [columns d3].
    repeat constructor;
      try (apply foldl_add_column_elem; apply Hin1; unfold required_columns;
           elem_of_list).
    apply foldl_add_column_new. cbn. elem_of_list. }
  rewrite Hc4. reflexivity.
Qed.

(** C5. Null handling of [compute_features_customers]: whenever it
    returns a table, with the flag set or cleared, the rows of that table
    are, in order, the input rows whose age is not null (so no row with a
    null age survives, and every other row does); each output row has one
    of the seven labels as [age_group], never null; its
    [club_member_status] is the literal ["ABSENT"] where the input one was
    null and the input string where there was one, and is never null; its
    age is not null. *)
Theorem compute_features_customers_null_handling
    (df : DataFrame) (drop_null_age : bool) (out : DataFrame) :
  compute_features_customers df drop_null_age = Ok out ->
  Forall2 (fun r r' =>
             (exists a, r !! "age" = Some a /\ a <> VNull) /\
             (exists s, r' !! "age_group" = Some (VStr s) /\ s ∈ age_groups) /\
             (exists st, r !! "club_member_status" = Some st /\
                (st = VNull ->
                 r' !! "club_member_status" = Some (VStr "ABSENT")) /\
                (forall s, st = VStr s ->
                 r' !! "club_member_status" = Some (VStr s))) /\
             r' !! "age_group" <> Some VNull /\
             r' !! "club_member_status" <> Some VNull /\
             r' !! "age" <> Some VNull /\
             r' !! "customer_id" = r !! "customer_id")
          (filter (fun r => null_at r "age" = false) (rows df)) (rows out).
Proof.
  intros Hout.
  apply compute_features_customers_steps
    in Hout as (_ & d1 & d2 & d3 & H1 & H2 & H3 & H4).
  destruct (customers_steps _ _ _ _ _ H1 H2 H3 H4) as [_ Hrows].
  eapply Forall2_impl; [exact Hrows|]. cbn beta.
  intros r r' (st & a & g & f & Hst & Ha & Hnn & Hg & Hf & ->).
  apply age_group_of_inv in Hg as [(s & -> & Hs) Hnum].
  destruct (cast_float64_numeric _ _ Hnn Hnum Hf) as [q ->].
  rewrite !project_lookup.
  rewrite !decide_True by elem_of_list.
  row_lookup. repeat split; eauto.
  - exists st. split; [done|]. split; [by intros ->|by intros s0 ->].
  - by destruct st.
Qed.

(** *** Age binning *)

Lemma Qle_bool_inject a b : Qle_bool (inject_Z a) (inject_Z b) = (a <=? b).
Proof. unfold Qle_bool. cbn. by rewrite !Z.mul_1_r. Qed.

(** An integer age and the float of the same value get the same label. *)
Lemma age_group_of_int_float z :
  age_group_of (VInt z) = age_group_of (VFloat (inject_Z z)).
Proof. age_unfold. by rewrite !Qle_bool_inject. Qed.

Ltac qle_cases :=
  repeat match goal with
         | |- context [Qle_bool ?x ?y] =>
             let E := fresh "E" in
             destruct (Qle_bool x y) eqn:E;
             [apply Qle_bool_iff in E
             |apply not_true_iff_false in E; rewrite Qle_bool_iff in E];
             unfold inject_Z in E; cbn [andb]; try (exfalso; lra)
         end.

(** An age inside the range a label stands for gets that label. *)
Lemma age_group_of_in_range q g :
  spec_in_age_group g q -> age_group_of (VFloat q) = Ok (VStr g).
Proof.
  unfold spec_in_age_group.
  intros [[-> [Hl Hh]]|[[-> [Hl Hh]]|[[-> [Hl Hh]]|[[-> [Hl Hh]]
         |[[-> [Hl Hh]]|[[-> [Hl Hh]]|[-> Hl]]]]]]];
    age_unfold; qle_cases; reflexivity.
Qed.

(** An age outside the six closed ranges takes the [otherwise] branch. *)
Lemma age_group_of_otherwise q :
  (forall g, g <> "66+" -> ~ spec_in_age_group g q) ->
  age_group_of (VFloat q) = Ok (VStr "66+").
Proof.
  intros Hout. age_unfold. qle_cases; try reflexivity; exfalso.
  all: match goal with
       | |- _ => eapply (Hout "0-18"); [done|]; left; split; [done|lra]
       | |- _ => eapply (Hout "19-25"); [done|]; right; left; split; [done|lra]
       | |- _ => eapply (Hout "26-35"); [done|];
                 right; right; left; split; [done|lra]
       | |- _ => eapply (Hout "36-45"); [done|];
                 right; right; right; left; split; [done|lra]
       | |- _ => eapply (Hout "46-55"); [done|];
                 right; right; right; right; left; split; [done|lra]
       | |- _ => eapply (Hout "56-65"); [done|];
                 right; right; right; right; right; left; split; [done|lra]
       end.
Qed.

(** The ranges the labels stand for are pairwise disjoint. *)
Lemma spec_in_age_group_unique g g' q :
  spec_in_age_group g q -> spec_in_age_group g' q -> g = g'.
Proof.
  unfold spec_in_age_group. intros Hg Hg'.
  repeat match goal with
         | H : _ \/ _ |- _ => destruct H as [H|H]
         | H : _ /\ _ |- _ => destruct H
         end; subst; try reflexivity; exfalso; lra.
Qed.

(** For a whole, non-negative age the label is the one and only label
    whose range holds the age. *)
Lemma age_group_of_whole_age z :
  0 <= z ->
  exists g, age_group_of (VInt z) = Ok (VStr g) /\
            age_group_of (VFloat (inject_Z z)) = Ok (VStr g) /\
            g ∈ age_groups /\
            spec_in_age_group g (inject_Z z) /\
            forall g', spec_in_age_group g' (inject_Z z) -> g' = g.
Proof.
  intros Hz.
  assert (Hq : forall a b : Z, a <= b -> (inject_Z a <= inject_Z b)%Q)
    by (intros a b Hab; by rewrite <- Zle_Qle).
  assert (Hin : exists g, g ∈ age_groups /\ spec_in_age_group g (inject_Z z)).
  { unfold spec_in_age_group, age_groups.
    assert (Hc : z <= 18 \/ 19 <= z <= 25 \/ 26 <= z <= 35 \/ 36 <= z <= 45 \/
                 46 <= z <= 55 \/ 56 <= z <= 65 \/ 66 <= z) by lia.
    destruct Hc as [Hc|[Hc|[Hc|[Hc|[Hc|[Hc|Hc]]]]]].
    - exists "0-18". split; [elem_of_list|].
      left. split; [done|]. split; [apply (Hq 0)|apply (Hq z 18)]; lia.
    - exists "19-25". split; [elem_of_list|].
      right; left. split; [done|]. split; [apply (Hq 19)|apply (Hq z 25)]; lia.
    - exists "26-35". split; [elem_of_list|].
      right; right; left.
      split; [done|]. split; [apply (Hq 26)|apply (Hq z 35)]; lia.
    - exists "36-45". split; [elem_of_list|].
      right; right; right; left.
      split; [done|]. split; [apply (Hq 36)|apply (Hq z 45)]; lia.
    - exists "46-55". split; [elem_of_list|].
      right; right; right; right; left.
      split; [done|]. split; [apply (Hq 46)|apply (Hq z 55)]; lia.
    - exists "56-65". split; [elem_of_list|].
      right; right; right; right; right; left.
      split; [done|]. split; [apply (Hq 56)|apply (Hq z 65)]; lia.
    - exists "66+". split; [elem_of_list|].
      do 6 right. split; [done|]. apply (Hq 66). lia. }
  destruct Hin as (g & Hg & Hin). exists g.
  rewrite age_group_of_int_float.
  repeat split; auto using age_group_of_in_range.
  intros g' Hin'. eapply spec_in_age_group_unique; eauto.
Qed.

(** The boundary ages named by the specification. *)
Lemma age_group_boundaries :
  age_group_of (VInt 18) = Ok (VStr "0-18") /\
  age_group_of (VInt 19) = Ok (VStr "19-25") /\
  age_group_of (VInt 65) = Ok (VStr "56-65") /\
  age_group_of (VInt 66) = Ok (VStr "66+") /\
  age_group_of (VFloat (18 # 1)) = Ok (VStr "0-18") /\
  age_group_of (VFloat (19 # 1)) = Ok (VStr "19-25") /\
  age_group_of (VFloat (65 # 1)) = Ok (VStr "56-65") /\
  age_group_of (VFloat (66 # 1)) = Ok (VStr "66+").
Proof. repeat split; age_unfold; reflexivity. Qed.

(** An age strictly between two consecutive ranges is labelled ["66+"]. *)
Lemma age_group_of_gap q (lo hi : Z) :
  (lo, hi) ∈ [(18, 19); (25, 26); (35, 36); (45, 46); (55, 56)] ->
  (inject_Z lo < q < inject_Z hi)%Q ->
  age_group_of (VFloat q) = Ok (VStr "66+").
Proof.
  intros Hlo [Hl Hh]. apply age_group_of_otherwise.
  intros g Hne Hin. unfold spec_in_age_group in Hin.
  repeat match goal with
         | H : _ ∈ _ :: _ |- _ => apply elem_of_cons in H as [[= -> ->]|H]
         | H : _ ∈ [] |- _ => by apply elem_of_nil in H
         end;
    unfold inject_Z in Hl, Hh;
    repeat match goal with
           | H : _ \/ _ |- _ => destruct H as [H|H]
           | H : _ /\ _ |- _ => destruct H
           end; subst; try done; lra.
Qed.

(** An age of 18.5 matches none of the six closed ranges: it takes the
    [otherwise] branch, in the cell and in the pipeline. *)
Lemma age_group_of_between_ranges :
  (fun out =>
     (fun r : gmap string value => (r !! "age", r !! "age_group"))
       <$> rows out)
    <$> compute_features_customers fractional_age_customers false
  = Ok [(Some (VFloat (37 # 2)), Some (VStr "66+"))] /\
  age_group_of (VFloat (37 # 2)) = Ok (VStr "66+") /\
  ~ in_earlier_range (37 # 2).
Proof.
  split; [vm_compute; reflexivity|].
  split; [vm_compute; reflexivity|].
  unfold in_earlier_range. intros Hin.
  repeat match goal with
         | H : _ \/ _ |- _ => destruct H as [H|H]
         | H : _ /\ _ |- _ => destruct H
         end; lra.
Qed.

End CustomerFacts.

(** ** The calendar on known dates *)

Lemma civil_from_days_examples :
  civil_from_days 0 = (1970, 1, 1) /\
  civil_from_days (-1) = (1969, 12, 31) /\
  civil_from_days 11016 = (2000, 2, 29) /\
  civil_from_days 18276 = (2020, 1, 15) /\
  civil_from_days 19782 = (2024, 2, 29) /\
  weekday_of_days 0 = 4 /\ weekday_of_days 18276 = 3 /\
  weekday_of_days (-1) = 3.
Proof. repeat split; reflexivity. Qed.

(** ** Facts about the transaction pipeline *)

Section TransactionFacts.
Context `{Host}.

Lemma assign_article_id r r1 :
  assign [alias (cast (col "article_id") Utf8) "article_id"] r r = Ok r1 ->
  exists a a', r !! "article_id" = Some a /\ cast_value Utf8 a = Ok a' /\
    r1 = <["article_id" := a']> r.
Proof.
  cbn [assign eval output_name]. intros Hr.
  destruct (r !! "article_id") as [a|]; [|discriminate].
  cbn [mbind result_bind] in Hr.
  destruct (cast_value Utf8 a) as [a'|] eqn:Ha; [|discriminate].
  injection Hr as <-. eauto.
Qed.

Lemma assign_calendar r r2 :
  assign [alias (dt_year (col "t_dat")) "year";
          alias (dt_month (col "t_dat")) "month";
          alias (dt_day (col "t_dat")) "day";
          alias (dt_weekday (col "t_dat")) "day_of_week"] r r = Ok r2 ->
  exists t y m d w, r !! "t_dat" = Some t /\
    dt_value year_of_days t = Ok y /\ dt_value month_of_days t = Ok m /\
    dt_value day_of_days t = Ok d /\ dt_value weekday_of_days t = Ok w /\
    r2 = <["day_of_week" := w]> (<["day" := d]> (<["month" := m]>
           (<["year" := y]> r))).
Proof.
  cbn [assign eval output_name]. intros Hr.
  destruct (r !! "t_dat") as [t|]; [|discriminate].
  cbn [mbind result_bind] in Hr.
  destruct (dt_value year_of_days t) as [y|] eqn:Hy; [|discriminate].
  cbn [mbind result_bind] in Hr.
  destruct (dt_value month_of_days t) as [m|] eqn:Hm; [|discriminate].
  cbn [mbind result_bind] in Hr.
  destruct (dt_value day_of_days t) as [d|] eqn:Hd; [|discriminate].
  cbn [mbind result_bind] in Hr.
  destruct (dt_value weekday_of_days t) as [w|] eqn:Hw; [|discriminate].
  injection Hr as <-. by exists t, y, m, d, w.
Qed.

Lemma assign_epoch r r3 :
  assign [alias (floordiv (cast (col "t_dat") Int64) 1000000) "t_dat"] r r
    = Ok r3 ->
  exists t e, r !! "t_dat" = Some t /\
    cast_value Int64 t ≫= floordiv_value 1000000 = Ok e /\
    r3 = <["t_dat" := e]> r.
Proof.
  cbn [assign eval output_name]. intros Hr.
  destruct (r !! "t_dat") as [t|]; [|discriminate].
  cbn [mbind result_bind] in Hr.
  destruct (cast_value Int64 t) as [i|] eqn:Hi; [|discriminate].
  cbn [mbind result_bind] in Hr.
  destruct (floordiv_value 1000000 i) as [e|] eqn:He; [|discriminate].
  injection Hr as <-. exists t, e. rewrite Hi. eauto.
Qed.

(** C7. [compute_features_transactions] drops no row and changes only
    what it derives: whenever it returns a table, that table has as many
    rows as the input, and its i-th row is the i-th input row with
    [article_id] replaced by the cast of that row's [article_id], with
    [year], [month], [day], [day_of_week] set to the calendar parts of
    that row's [t_dat], and with [t_dat] replaced by the floor division
    by 1,000,000 of the [Int64] cast of that row's [t_dat]; every other
    column of the row is unchanged. *)
Theorem compute_features_transactions_frame (df out : DataFrame) :
  compute_features_transactions df = Ok out ->
  length (rows out) = length (rows df) /\
  Forall2 (fun r r' => exists a t a' y m d w e,
             r !! "article_id" = Some a /\ r !! "t_dat" = Some t /\
             cast_value Utf8 a = Ok a' /\
             dt_value year_of_days t = Ok y /\
             dt_value month_of_days t = Ok m /\
             dt_value day_of_days t = Ok d /\
             dt_value weekday_of_days t = Ok w /\
             cast_value Int64 t ≫= floordiv_value 1000000 = Ok e /\
             r' !! "article_id" = Some a' /\ r' !! "year" = Some y /\
             r' !! "month" = Some m /\ r' !! "day" = Some d /\
             r' !! "day_of_week" = Some w /\ r' !! "t_dat" = Some e /\
             forall c, c ∉ ["article_id"; "year"; "month"; "day";
                            "day_of_week"; "t_dat"] ->
                       r' !! c = r !! c)
          (rows df) (rows out).
Proof.
  unfold compute_features_transactions. intros Hout.
  destruct (with_columns _ df) as [d1|] eqn:H1; [|done].
  cbn [mbind result_bind] in Hout.
  destruct (with_columns _ d1) as [d2|] eqn:H2; [|done].
  cbn [mbind result_bind] in Hout.
  apply with_columns_inv in H1 as (_ & _ & H1).
  apply with_columns_inv in H2 as (_ & _ & H2).
  apply with_columns_inv in Hout as (_ & _ & H3).
  pose proof (Forall2_compose _ _ _ _ _ H1
                (Forall2_compose _ _ _ _ _ H2 H3)) as Hall.
  clear H1 H2 H3. cbn beta in Hall.
  split; [symmetry; eapply Forall2_length, Hall|].
  eapply Forall2_impl; [exact Hall|]. cbn beta.
  intros r r' (r1 & Hr1 & r2 & Hr2 & Hr3).
  apply assign_article_id in Hr1 as (a & a' & Ha & Hca & ->).
  apply assign_calendar in Hr2 as (t & y & m & d & w & Ht & Hy & Hm & Hd & Hw & ->).
  apply assign_epoch in Hr3 as (t' & e & Ht' & He & ->).
  row_lookup in Ht. row_lookup in Ht'. rewrite Ht in Ht'. injection Ht' as <-.
  exists a, t, a', y, m, d, w, e. row_lookup.
  repeat split; try done.
  intros c Hc.
  repeat (rewrite lookup_insert_ne;
          [|intros <-; apply Hc; elem_of_list]).
  done.
Qed.

(** On a table that has the two columns, with integer, string or null
    identifiers and temporal or null timestamps,
    [compute_features_transactions] returns a table. *)
Lemma compute_features_transactions_total df :
  "article_id" ∈ columns df -> "t_dat" ∈ columns df ->
  Forall (fun r =>
            (exists a, r !! "article_id" = Some a /\
               (a = VNull \/ (exists z, a = VInt z) \/
                (exists s, a = VStr s))) /\
            (exists t, r !! "t_dat" = Some t /\
               (t = VNull \/ (exists u n, t = VDatetime u n) \/
                (exists d, t = VDate d)))) (rows df) ->
  exists out, compute_features_transactions df = Ok out.
Proof.
  intros Ha Ht Hrows. unfold compute_features_transactions.
  destruct (with_columns_total
              [alias (cast (col "article_id") Utf8) "article_id"] df)
    as [rs1 H1].
  { by repeat constructor. }
  { eapply Forall_impl; [exact Hrows|].
    intros r [(a & Hra & Hnum) _]. cbn [assign eval output_name].
    rewrite Hra. cbn [mbind result_bind].
    destruct Hnum as [->|[[z ->]|[s ->]]]; cbn; eauto. }
  rewrite H1. cbn [mbind result_bind].
  apply with_columns_inv in H1 as (_ & _ & H1). cbn [rows] in H1.
  set (d1 := {| columns := _; rows := rs1 |}).
  assert (Ht1 : "t_dat" ∈ columns d1) by by apply foldl_add_column_elem.
  assert (Hrows1 : Forall (fun r : gmap string value =>
            exists t, r !! "t_dat" = Some t /\
              (t = VNull \/ (exists u n, t = VDatetime u n) \/
               (exists d, t = VDate d))) rs1).
  { eapply Forall2_Forall_transfer; [|exact H1|exact Hrows].
    cbn beta. intros r r' Hr' (_ & t & Hrt & Htemp).
    apply assign_article_id in Hr' as (a & a' & _ & _ & ->).
    exists t. by rewrite lookup_insert_ne. }
  destruct (with_columns_total
              [alias (dt_year (col "t_dat")) "year";
               alias (dt_month (col "t_dat")) "month";
               alias (dt_day (col "t_dat")) "day";
               alias (dt_weekday (col "t_dat")) "day_of_week"] d1)
    as [rs2 H2].
  { by repeat constructor. }
  { eapply Forall_impl; [exact Hrows1|].
    intros r (t & Hrt & Htemp). cbn [assign eval output_name].
    rewrite Hrt. cbn [mbind result_bind].
    destruct Htemp as [->|[(u & n & ->)|[d ->]]]; cbn; eauto. }
  rewrite H2. cbn [mbind result_bind].
  apply with_columns_inv in H2 as (_ & _ & H2). cbn [rows] in H2.
  set (d2 := {| columns := _; rows := rs2 |}).
  assert (Ht2 : "t_dat" ∈ columns d2) by by apply foldl_add_column_elem.
  destruct (with_columns_total
              [alias (floordiv (cast (col "t_dat") Int64) 1000000) "t_dat"]
              d2) as [rs3 H3].
  { by repeat constructor. }
  { eapply Forall2_Forall_transfer; [|exact H2|exact Hrows1].
    cbn beta. intros r r' Hr' (t & Hrt & Htemp).
    apply assign_calendar in Hr' as (t' & y & m & d & w & _ & _ & _ & _ & _ & ->).
    cbn [assign eval output_name]. row_lookup. rewrite Hrt.
    cbn [mbind result_bind].
    destruct Htemp as [->|[(u & n & ->)|[d' ->]]]; cbn; eauto. }
  rewrite H3. eauto.
Qed.

(** *** Epoch milliseconds *)

(** What the pipeline stores for a [Datetime] cell: the native epoch
    integer divided by 1,000,000, whatever the time unit. *)
Lemma t_dat_of_datetime u t :
  cast_value Int64 (VDatetime u t) ≫= floordiv_value 1000000
  = Ok (VInt (t / 1000000)).
Proof. reflexivity. Qed.

(** For a timestamp stored in nanoseconds the stored value is the epoch
    millisecond. *)
Lemma t_dat_nanoseconds_is_epoch_millisecond t :
  exists e, spec_epoch_millisecond (VDatetime ns t) = Some e /\
            cast_value Int64 (VDatetime ns t) ≫= floordiv_value 1000000
            = Ok (VInt e).
Proof. eexists. split; reflexivity. Qed.

(** The fixed divisor lands on milliseconds for every timestamp of a unit
    only if the unit is nanoseconds. *)
Lemma t_dat_epoch_millisecond_only_nanoseconds u :
  (forall t, cast_value Int64 (VDatetime u t) ≫= floordiv_value 1000000
             = (VInt <$> match spec_epoch_millisecond (VDatetime u t) with
                         | Some e => Ok e
                         | None => Err InvalidOperationError
                         end)) <->
  u = ns.
Proof.
  split.
  - intros Hall. destruct u; [done| |]; specialize (Hall 1000000); discriminate.
  - intros ->. reflexivity.
Qed.

(** C3. A transaction of 2020-01-15 00:00:00 whose [t_dat] is a
    [Datetime] in microseconds (native epoch integer 1579046400000000)
    comes out of [compute_features_transactions], and of
    [convert_t_dat_to_epoch_millisecond], with [t_dat] = 1579046400, the
    epoch second, whereas its epoch millisecond is 1579046400000; the same
    instant stored in nanoseconds comes out as 1579046400000. *)
Theorem t_dat_microseconds_not_epoch_millisecond :
  (fun out =>
     (fun r : gmap string value =>
        (r !! "t_dat", r !! "year", r !! "month", r !! "day"))
       <$> rows out)
    <$> compute_features_transactions microsecond_transactions
  = Ok [(Some (VInt 1579046400), Some (VInt 2020), Some (VInt 1),
         Some (VInt 15))] /\
  convert_t_dat_to_epoch_millisecond microsecond_transactions
    = Ok [VInt 1579046400] /\
  spec_epoch_millisecond (VDatetime us 1579046400000000)
    = Some 1579046400000 /\
  convert_t_dat_to_epoch_millisecond nanosecond_transactions
    = Ok [VInt 1579046400000] /\
  spec_epoch_millisecond (VDatetime ns 1579046400000000000)
    = Some 1579046400000.
Proof. repeat split; vm_compute; reflexivity. Qed.

End TransactionFacts.

(** ** Facts about the sampler *)

Section SamplerFacts.
Context `{Host}.

Lemma keys_match_inv a b :
  keys_match a b = true ->
  exists x y, a = Some x /\ b = Some y /\ value_eqb x y = true.
Proof.
  unfold keys_match. intros Hm.
  destruct a as [x|], b as [y|]; try (by destruct x); try done.
  exists x, y. by destruct x, y.
Qed.

Lemma value_eqb_str s y : value_eqb (VStr s) y = true -> y = VStr s.
Proof.
  destruct y; cbn; try done. intros Hs. apply bool_decide_eq_true in Hs.
  by subst.
Qed.

Lemma length_omap_lookup {A} (l : list A) (idx : list nat) :
  Forall (fun i => (i < length l)%nat) idx ->
  length (omap (fun i => l !! i) idx) = length idx.
Proof.
  induction 1 as [|i idx Hi _ IH]; [done|]. cbn.
  destruct (lookup_lt_is_Some_2 l i Hi) as [x ->]. cbn. by rewrite IH.
Qed.

(** The join of [sample]: the transactions whose customer is among the
    sampled ones, unchanged. *)
Lemma join_customer_ids t c' ids out :
  select ["customer_id"] c' = Ok ids ->
  join t ids "customer_id" = Ok out ->
  columns out = columns t /\
  forall r, r ∈ rows out <->
            r ∈ rows t /\
            exists rc, rc ∈ rows c' /\
              keys_match (r !! "customer_id") (rc !! "customer_id") = true.
Proof.
  intros Hs Hj. apply select_inv in Hs as [_ ->].
  unfold join in Hj.
  destruct (check_columns _ t) as [u|]; [|done]. cbn [mbind result_bind] in Hj.
  destruct (check_columns _ _) as [u'|]; [|done]. cbn [mbind result_bind] in Hj.
  cbn [columns rows] in Hj.
  assert (Hextra : filter (fun c : string => c <> "customer_id") ["customer_id"]
                   = []) by reflexivity.
  rewrite Hextra in Hj. injection Hj as <-. cbn [columns rows merge_row foldl].
  split; [apply app_nil_r|].
  intros r. rewrite list_elem_of_bind. split.
  - intros (l & Hr & Hl). apply list_elem_of_bind in Hr as (k & Hr & Hk).
    apply list_elem_of_singleton in Hr as ->.
    apply list_elem_of_filter in Hk as [Hm Hk].
    apply list_elem_of_fmap in Hk as (rc & -> & Hrc).
    rewrite project_lookup, decide_True in Hm by elem_of_list. eauto.
  - intros (Hr & rc & Hrc & Hm). exists r. split; [|done].
    apply list_elem_of_bind. exists (project ["customer_id"] rc). split.
    + apply list_elem_of_singleton. done.
    + apply list_elem_of_filter. split.
      * by rewrite project_lookup, decide_True by elem_of_list.
      * apply list_elem_of_fmap. eauto.
Qed.

Lemma getitem_sizes size :
  exists n, getitem DatasetSampler._SIZES size = Ok n /\ 0 < n.
Proof. destruct size; eexists; (split; [reflexivity|lia]). Qed.

(** One run of [sample], step by step: the generator is reset to seed 42
    whatever its state was, the sample is drawn with the seed that
    [randint] then yields, and the result is the outcome of the select and
    the join on the drawn customers. *)
Lemma sample_run self c t w n :
  getitem DatasetSampler._SIZES (DatasetSampler._size self) = Ok n ->
  let sg := random_randint 0 10000 (random_seed 42) in
  let c' := {| columns := columns c;
               rows := omap (fun i => rows c !! i)
                            (rand_index sg.1 (Z.to_nat n) (length (rows c))) |} in
  exists w',
    py_random w' = sg.2 /\
    DatasetSampler.sample self c t w =
      (if height c <? n then Err ShapeError
       else ids ← select ["customer_id"] c';
            t' ← join t ids "customer_id";
            Ok {| customers := c'; transactions := t' |},
       w') /\
    ((height c <? n) = true ->
     sink w' = sink w ++ ["Sampling " +:+ pretty n +:+ " customers."]).
Proof.
  intros Hn sg c'. subst sg c'.
  unfold DatasetSampler.sample, DataFrame_sample, randint, seed, logger_info,
    lift, mbind, M_bind, mret, M_ret.
  cbn [py_random sink]. rewrite Hn.
  destruct (random_randint 0 10000 (random_seed 42)) as [s g]. cbn [fst snd].
  destruct (height c <? n).
  - eexists. split; [|split; [reflexivity|]]; done.
  - destruct (select _ _) as [ids|]; cbn [result_bind].
    + destruct (join t ids "customer_id") as [t'|]; cbn [result_bind];
        (eexists; split; [|split; [reflexivity|done]]; done).
    + eexists; split; [|split; [reflexivity|done]]; done.
Qed.

(** C1. [sample] is deterministic: run on the same configured size and
    the same two tables from any two states of the world (any state of
    Python's global generator, any log), it returns the same outcome (the
    same pair of tables, or the same error) and leaves the generator in
    the same state, because it first resets the generator to the fixed
    seed 42; in particular a second call right after a first one returns
    what the first returned. *)
Theorem sample_deterministic
    (self : DatasetSampler.t) (customers_df transaction_df : DataFrame)
    (w1 w2 : world) :
  let run w := DatasetSampler.sample self customers_df transaction_df w in
  (run w1).1 = (run w2).1 /\
  py_random (run w1).2 = py_random (run w2).2 /\
  (run (run w1).2).1 = (run w1).1.
Proof.
  cbn zeta.
  assert (Hdet : forall wa wb,
            (DatasetSampler.sample self customers_df transaction_df wa).1
            = (DatasetSampler.sample self customers_df transaction_df wb).1 /\
            py_random
              (DatasetSampler.sample self customers_df transaction_df wa).2
            = py_random
                (DatasetSampler.sample self customers_df transaction_df wb).2).
  { intros wa wb.
    destruct (getitem_sizes (DatasetSampler._size self)) as (n & Hn & _).
    destruct (sample_run self customers_df transaction_df wa n Hn)
      as (wa' & Hga & -> & _).
    destruct (sample_run self customers_df transaction_df wb n Hn)
      as (wb' & Hgb & -> & _).
    cbn [fst snd]. split; [done|congruence]. }
  split; [apply Hdet|]. split; apply Hdet.
Qed.

(** C2. Referential integrity of [sample]: whenever it returns a pair of
    tables, the returned transactions are exactly the input transactions
    whose [customer_id] matches the [customer_id] of a returned customer;
    so every returned transaction has a (present) [customer_id] equal to
    that of some returned customer, and an input transaction whose
    customer was not sampled is not returned. *)
Theorem sample_referential_integrity
    (self : DatasetSampler.t) (customers_df transaction_df : DataFrame)
    (w w' : world) (out : SampledDataset) :
  DatasetSampler.sample self customers_df transaction_df w = (Ok out, w') ->
  (forall r, r ∈ rows (transactions out) <->
             r ∈ rows transaction_df /\
             exists rc, rc ∈ rows (customers out) /\
               keys_match (r !! "customer_id") (rc !! "customer_id") = true) /\
  Forall (fun r => exists rc k k',
            rc ∈ rows (customers out) /\
            r !! "customer_id" = Some k /\ rc !! "customer_id" = Some k' /\
            value_eqb k k' = true /\
            (forall s, k = VStr s -> k' = VStr s))
         (rows (transactions out)) /\
  Forall (fun rc => rc ∈ rows customers_df) (rows (customers out)).
Proof.
  intros Hrun.
  destruct (getitem_sizes (DatasetSampler._size self)) as (n & Hn & _).
  destruct (sample_run self customers_df transaction_df w n Hn)
    as (w0 & _ & Hrun' & _).
  rewrite Hrun in Hrun'. injection Hrun' as Hout _.
  destruct (height customers_df <? n); [done|].
  destruct (select _ _) as [ids|] eqn:Hs; [|done].
  cbn [mbind result_bind] in Hout.
  destruct (join transaction_df ids "customer_id") as [t'|] eqn:Hj; [|done].
  cbn [mbind result_bind] in Hout. injection Hout as ->.
  cbn [customers transactions rows].
  destruct (join_customer_ids _ _ _ _ Hs Hj) as [_ Hrows]. cbn [rows] in Hrows.
  split; [exact Hrows|]. split.
  - apply Forall_forall. intros r Hr.
    apply Hrows in Hr as (_ & rc & Hrc & Hm).
    apply keys_match_inv in Hm as (k & k' & Hk & Hk' & Hm).
    exists rc, k, k'. repeat split; try done.
    intros s ->. by apply value_eqb_str.
  - apply Forall_forall. intros rc Hrc.
    apply list_elem_of_omap in Hrc as (i & _ & Hi).
    by eapply list_elem_of_lookup_2.
Qed.


(** C10. When the customer table has fewer rows than the count of the
    configured size class, [sample] fails with the [ShapeError] of the
    sampling step, having logged only its first message: no pair of
    tables is returned, neither a clamped one nor a smaller one.  When
    the table has at least that many rows, the sampling step succeeds,
    from any state of the world, and draws exactly that many rows. *)
Theorem sample_fails_on_small_population
    (self : DatasetSampler.t) (customers_df transaction_df : DataFrame)
    (w : world) (n : Z) :
  getitem DatasetSampler._SIZES (DatasetSampler._size self) = Ok n ->
  (height customers_df < n ->
   exists w',
     DatasetSampler.sample self customers_df transaction_df w
       = (Err ShapeError, w') /\
     sink w' = sink w ++ ["Sampling " +:+ pretty n +:+ " customers."]) /\
  (n <= height customers_df ->
   exists df w',
     DataFrame_sample n customers_df w = (Ok df, w') /\ height df = n).
Proof.
  intros Hn. split.
  - intros Hlt.
    destruct (sample_run self customers_df transaction_df w n Hn)
      as (w' & _ & -> & Hsink).
    destruct (Z.ltb_spec (height customers_df) n) as [_|]; [|lia].
    exists w'. split; [done|]. by apply Hsink.
  - intros Hle.
    destruct (getitem_sizes (DatasetSampler._size self)) as (n' & Hn' & Hpos).
    rewrite Hn in Hn'. injection Hn' as <-.
    unfold DataFrame_sample, randint, lift, mbind, M_bind, mret, M_ret.
    destruct (random_randint 0 10000 (py_random w)) as [s g].
    destruct (Z.ltb_spec (height customers_df) n) as [|_]; [lia|].
    do 2 eexists. split; [reflexivity|].
    unfold height in *. cbn [rows].
    rewrite length_omap_lookup by apply rand_index_bound.
    rewrite rand_index_length by lia. lia.
Qed.

End SamplerFacts.

(** ** The theorems at work on concrete tables *)

(** The specification's scenario: the row with the null age is removed,
    age 10 gets ["0-18"] and a filled status, age 70 gets ["66+"]. *)
Lemma scenario_features_rows :
  (fun r : gmap string value =>
     (r !! "customer_id", r !! "club_member_status", r !! "age",
      r !! "age_group")) <$> rows scenario_features
  = [(Some (VStr "c0"), Some (VStr "ABSENT"), Some (VFloat (10 # 1)),
      Some (VStr "0-18"));
     (Some (VStr "c2"), Some (VStr "ACTIVE"), Some (VFloat (70 # 1)),
      Some (VStr "66+"))].
Proof. vm_compute. reflexivity. Qed.

Lemma compute_features_customers_null_handling_witness :
  compute_features_customers (H := demo_host) scenario_customers false
    = Ok scenario_features /\
  Forall2 (fun r r' =>
             (exists a, r !! "age" = Some a /\ a <> VNull) /\
             (exists s, r' !! "age_group" = Some (VStr s) /\ s ∈ age_groups) /\
             (exists st, r !! "club_member_status" = Some st /\
                (st = VNull ->
                 r' !! "club_member_status" = Some (VStr "ABSENT")) /\
                (forall s, st = VStr s ->
                 r' !! "club_member_status" = Some (VStr s))) /\
             r' !! "age_group" <> Some VNull /\
             r' !! "club_member_status" <> Some VNull /\
             r' !! "age" <> Some VNull /\
             r' !! "customer_id" = r !! "customer_id")
          (filter (fun r => null_at r "age" = false) (rows scenario_customers)) (rows scenario_features).
Proof.
  split; [vm_compute; reflexivity|].
  apply (compute_features_customers_null_handling
           (H := demo_host) scenario_customers false scenario_features).
  vm_compute. reflexivity.
Defined.

Lemma compute_features_transactions_frame_witness :
  compute_features_transactions (H := demo_host) demo_transactions
    = Ok demo_transaction_features /\
  length (rows demo_transaction_features) = length (rows demo_transactions) /\
  Forall2 (fun r r' => exists a t a' y m d w e,
             r !! "article_id" = Some a /\ r !! "t_dat" = Some t /\
             cast_value (H := demo_host) Utf8 a = Ok a' /\
             dt_value year_of_days t = Ok y /\
             dt_value month_of_days t = Ok m /\
             dt_value day_of_days t = Ok d /\
             dt_value weekday_of_days t = Ok w /\
             cast_value (H := demo_host) Int64 t ≫= floordiv_value 1000000 = Ok e /\
             r' !! "article_id" = Some a' /\ r' !! "year" = Some y /\
             r' !! "month" = Some m /\ r' !! "day" = Some d /\
             r' !! "day_of_week" = Some w /\ r' !! "t_dat" = Some e /\
             forall c, c ∉ ["article_id"; "year"; "month"; "day";
                            "day_of_week"; "t_dat"] ->
                       r' !! c = r !! c)
          (rows demo_transactions) (rows demo_transaction_features).
Proof.
  split; [vm_compute; reflexivity|].
  apply (compute_features_transactions_frame
           (H := demo_host) demo_transactions demo_transaction_features).
  vm_compute. reflexivity.
Defined.

Lemma sample_referential_integrity_witness :
  DatasetSampler.sample (H := demo_host) (DatasetSampler.__init__ SMALL)
    demo_population demo_transactions demo_world
  = (Ok demo_sampled,
     (DatasetSampler.sample (H := demo_host) (DatasetSampler.__init__ SMALL)
        demo_population demo_transactions demo_world).2) /\
  (forall r, r ∈ rows (transactions demo_sampled) <->
             r ∈ rows demo_transactions /\
             exists rc, rc ∈ rows (customers demo_sampled) /\
               keys_match (H := demo_host) (r !! "customer_id") (rc !! "customer_id") = true) /\
  Forall (fun r => exists rc k k',
            rc ∈ rows (customers demo_sampled) /\
            r !! "customer_id" = Some k /\ rc !! "customer_id" = Some k' /\
            value_eqb k k' = true /\
            (forall s, k = VStr s -> k' = VStr s))
         (rows (transactions demo_sampled)) /\
  Forall (fun rc => rc ∈ rows demo_population) (rows (customers demo_sampled)).
Proof.
  assert (Hrun :
    DatasetSampler.sample (H := demo_host) (DatasetSampler.__init__ SMALL)
      demo_population demo_transactions demo_world
    = (Ok demo_sampled,
       (DatasetSampler.sample (H := demo_host) (DatasetSampler.__init__ SMALL)
          demo_population demo_transactions demo_world).2)).
  { vm_cast_no_check
      (eq_refl (Ok demo_sampled,
         (DatasetSampler.sample (H := demo_host)
            (DatasetSampler.__init__ SMALL)
            demo_population demo_transactions demo_world).2)). }
  split; [exact Hrun|].
  exact (sample_referential_integrity (H := demo_host)
           (DatasetSampler.__init__ SMALL) demo_population demo_transactions
           demo_world _ demo_sampled Hrun).
Defined.


Lemma sample_fails_on_small_population_witness :
  height scenario_customers < 1000 /\
  exists w',
    DatasetSampler.sample (H := demo_host) (DatasetSampler.__init__ SMALL)
      scenario_customers demo_transactions demo_world = (Err ShapeError, w')
    /\ sink w' = sink demo_world ++ ["Sampling 1000 customers."].
Proof.
  split; [reflexivity|].
  apply (proj1 (sample_fails_on_small_population (H := demo_host)
                  (DatasetSampler.__init__ SMALL) scenario_customers
                  demo_transactions demo_world 1000 eq_refl)).
  reflexivity.
Defined.

(** * Further properties *)

(** ** Errors *)

Lemma traverse_Err {A B} (f : A -> result B) l e :
  traverse f l = Err e -> exists x, x ∈ l /\ f x = Err e.
Proof.
  induction l as [|x l IH]; cbn; [discriminate|].
  destruct (f x) as [y|e'] eqn:Hx; cbn.
  - destruct (traverse f l) as [ys|e'] eqn:Hl; cbn; [discriminate|].
    intros [= ->]. destruct (IH eq_refl) as (x' & Hx' & Hf).
    exists x'. split; [by apply list_elem_of_further|done].
  - intros [= ->]. exists x. split; [apply list_elem_of_here|done].
Qed.

Lemma traverse_Forall2_Ok {A B} (f : A -> result B) l l' :
  Forall2 (fun x y => f x = Ok y) l l' -> traverse f l = Ok l'.
Proof.
  induction 1 as [|x y l l' Hxy _ IH]; [done|]. cbn.
  rewrite Hxy. cbn. rewrite IH. done.
Qed.

Lemma check_columns_Err names df e :
  check_columns names df = Err e ->
  exists c, e = ColumnNotFoundError c /\ c ∈ names /\ c ∉ columns df.
Proof.
  unfold check_columns, missing_column.
  destruct (head _) as [c|] eqn:Hc; [|discriminate]. intros [= <-].
  exists c. split; [done|].
  apply head_Some_elem_of, list_elem_of_filter in Hc. tauto.
Qed.

Section ErrorFacts.
Context `{Host}.

Lemma cast_value_Err t v e : cast_value t v = Err e -> polars_error e.
Proof.
  unfold cast_value.
  destruct t, v; try discriminate; destruct (cast_other _ _);
    try discriminate; intros [= <-]; by left.
Qed.

Lemma eval_Err e r x : eval e r = Err x -> polars_error x.
Proof.
  revert x. induction e; intros x; cbn [eval].
  - destruct (r !! name); [discriminate|]. intros [= <-]. right. eauto.
  - discriminate.
  - auto.
  - destruct (eval e r); cbn; [apply cast_value_Err|]. intros [= <-]. auto.
  - destruct (eval e r); cbn; [discriminate|]. intros [= <-]. auto.
  - destruct (eval e r) as [v|]; cbn; [|intros [= <-]; auto].
    destruct v; cbn; try discriminate; intros [= <-]; by left.
  - destruct (eval e1 r) as [vc|]; cbn; [|intros [= <-]; auto].
    destruct (eval e2 r) as [va|]; cbn; [|intros [= <-]; auto].
    destruct (eval e3 r) as [vb|]; cbn; [|intros [= <-]; auto].
    destruct vc as [|[|]| | | | |]; cbn; try discriminate;
      intros [= <-]; by left.
  - destruct (eval e r) as [v|]; cbn; [|intros [= <-]; auto].
    destruct v; cbn; try discriminate; intros [= <-]; by left.
  - destruct (eval e r) as [v|]; cbn; [|intros [= <-]; auto].
    destruct v; cbn; try discriminate; intros [= <-]; by left.
  - destruct (eval e r) as [v|]; cbn; [|intros [= <-]; auto].
    destruct v; cbn; try discriminate; intros [= <-]; by left.
  - destruct (eval e r) as [v|]; cbn; [|intros [= <-]; auto].
    destruct v; cbn; try discriminate; intros [= <-]; by left.
  - destruct (eval e r) as [v|]; cbn; [|intros [= <-]; auto].
    destruct v; cbn; try discriminate; intros [= <-]; by left.
Qed.

Lemma assign_Err exprs r acc x : assign exprs r acc = Err x -> polars_error x.
Proof.
  revert acc. induction exprs as [|e es IH]; intros acc; cbn [assign];
    [discriminate|].
  destruct (eval e r) as [v|] eqn:He; cbn.
  - apply IH.
  - intros [= <-]. eapply eval_Err, He.
Qed.

Lemma with_columns_Err exprs df x :
  with_columns exprs df = Err x -> polars_error x.
Proof.
  unfold with_columns.
  destruct (check_columns _ df) as [u|e] eqn:Hc; cbn.
  - destruct (traverse _ (rows df)) as [rs|e] eqn:Hr; cbn; [discriminate|].
    intros [= <-]. apply traverse_Err in Hr as (r & _ & Hr).
    eapply assign_Err, Hr.
  - intros [= <-]. apply check_columns_Err in Hc as (c & -> & _). right. eauto.
Qed.

Lemma select_Err names df x : select names df = Err x -> polars_error x.
Proof.
  unfold select. destruct (check_columns names df) as [u|e] eqn:Hc; cbn;
    [discriminate|].
  intros [= <-]. apply check_columns_Err in Hc as (c & -> & _). right. eauto.
Qed.

Lemma drop_nulls_Err subset df x :
  drop_nulls subset df = Err x -> polars_error x.
Proof.
  unfold drop_nulls. destruct (check_columns subset df) as [u|e] eqn:Hc; cbn;
    [discriminate|].
  intros [= <-]. apply check_columns_Err in Hc as (c & -> & _). right. eauto.
Qed.

End ErrorFacts.

(** ** The customer pipeline, further *)

Lemma filter_ext_in {A} (P Q : A -> Prop)
    `{!forall x, Decision (P x), !forall x, Decision (Q x)} (l : list A) :
  Forall (fun x => P x <-> Q x) l -> filter P l = filter Q l.
Proof.
  induction 1 as [|x l Hx _ IH]; [done|].
  rewrite !filter_cons, IH.
  destruct (decide (P x)), (decide (Q x)); tauto.
Qed.

Section MoreCustomerFacts.
Context `{Host}.

(** X1. Schema validation of [compute_features_customers]: when a
    required column is missing the call fails with a [ValueError] whose
    message lists every missing required column, in the order
    customer_id, club_member_status, age, postal_code, whatever the rows
    and the flag are; and a [ValueError] is raised in no other case (with
    the required columns present every failure is an error of polars). *)
Theorem compute_features_customers_validation
    (df : DataFrame) (drop_null_age : bool) :
  let missing := filter (fun c => c ∉ columns df) required_columns in
  (missing <> [] ->
   compute_features_customers df drop_null_age
   = Err (ValueError ("Columns " +:+ String.concat ", " missing
                      +:+ " not found in the DataFrame"))) /\
  (forall c, c ∈ missing <-> c ∈ required_columns /\ c ∉ columns df) /\
  (forall e, compute_features_customers df drop_null_age = Err e ->
             missing = [] -> polars_error e) /\
  (forall msg, compute_features_customers df drop_null_age
               = Err (ValueError msg) -> missing <> []).
Proof.
  cbn zeta.
  assert (Hpolars : forall e,
            compute_features_customers df drop_null_age = Err e ->
            filter (fun c => c ∉ columns df) required_columns = [] ->
            polars_error e).
  { intros e He Hm. revert He. unfold compute_features_customers.
    rewrite Hm, bool_decide_false by (by intros []).
    unfold filling_missing_club_member_status, drop_na_age.
    destruct (with_columns _ df) as [d1|] eqn:H1; cbn [mbind result_bind];
      [|intros [= <-]; eapply with_columns_Err, H1].
    destruct (drop_nulls _ d1) as [d2|] eqn:H2; cbn [mbind result_bind];
      [|intros [= <-]; eapply drop_nulls_Err, H2].
    destruct (with_columns _ d2) as [d3|] eqn:H3; cbn [mbind result_bind];
      [|intros [= <-]; eapply with_columns_Err, H3].
    destruct (select _ d3) as [d4|] eqn:H4; cbn [mbind result_bind];
      [|intros [= <-]; eapply select_Err, H4].
    destruct drop_null_age; [|discriminate].
    apply drop_nulls_Err. }
  split; [|split; [|split]].
  - intros Hm. unfold compute_features_customers.
    by rewrite bool_decide_true.
  - intros c. rewrite list_elem_of_filter. tauto.
  - exact Hpolars.
  - intros msg He Hm. destruct (Hpolars _ He Hm) as [|[c ?]]; discriminate.
Qed.

(** What a successful run makes of each input row with a non-null age. *)
Lemma customers_rows df drop_null_age out :
  compute_features_customers df drop_null_age = Ok out ->
  columns out = customer_feature_columns /\
  Forall2 (fun r r' => exists st a s q,
             r !! "club_member_status" = Some st /\
             r !! "age" = Some a /\
             (a = VInt (Qnum q) /\ Qden q = 1%positive \/ a = VFloat q) /\
             age_group_of a = Ok (VStr s) /\
             age_group_of (VFloat q) = Ok (VStr s) /\
             r' = project customer_feature_columns
                    (<["age" := VFloat q]> (<["age_group" := VStr s]>
                      (<["club_member_status" :=
                           fill_null_value (VStr "ABSENT") st]> r))))
          (filter (fun r => null_at r "age" = false) (rows df)) (rows out).
Proof.
  intros Hout.
  apply compute_features_customers_steps
    in Hout as (_ & d1 & d2 & d3 & H1 & H2 & H3 & H4).
  destruct (customers_steps _ _ _ _ _ H1 H2 H3 H4) as [Hcols Hrows].
  split; [done|]. eapply Forall2_impl; [exact Hrows|]. cbn beta.
  intros r r' (st & a & g & f & Hst & Ha & Hnn & Hg & Hf & ->).
  pose proof Hg as [(s & -> & _) Hnum]%age_group_of_inv.
  destruct Hnum as [->|[[z ->]|[q ->]]]; [done| |].
  - injection Hf as <-. exists st, (VInt z), s, (inject_Z z).
    repeat split; try done; [by left|].
    by rewrite <- age_group_of_int_float.
  - injection Hf as <-. exists st, (VFloat q), s, q.
    repeat split; try done. by right.
Qed.

(** X2. Output schema of [compute_features_customers]: a returned table
    has exactly the columns customer_id, club_member_status, age,
    postal_code, age_group, in this order, and its rows have no cell
    outside these columns (every other input column is dropped), while
    the cells of club_member_status, age and age_group are always
    there. *)
Theorem compute_features_customers_schema
    (df : DataFrame) (drop_null_age : bool) (out : DataFrame) :
  compute_features_customers df drop_null_age = Ok out ->
  columns out = ["customer_id"; "club_member_status"; "age"; "postal_code";
                 "age_group"] /\
  Forall (fun r' : gmap string value =>
            (forall c, is_Some (r' !! c) -> c ∈ columns out) /\
            is_Some (r' !! "club_member_status") /\
            is_Some (r' !! "age") /\ is_Some (r' !! "age_group"))
         (rows out).
Proof.
  intros Hout. destruct (customers_rows _ _ _ Hout) as [Hcols Hrows].
  split; [done|]. rewrite Hcols.
  eapply Forall2_Forall_transfer;
    [|exact Hrows|apply Forall_true; intros; exact I].
  cbn beta. intros r r' (st & a & s & q & _ & _ & _ & _ & _ & ->) _.
  repeat split.
  - intros c. rewrite project_lookup. case_decide; [done|].
    by intros [? ?].
  - rewrite project_lookup, decide_True by (unfold customer_feature_columns;
                                            elem_of_list).
    row_lookup. eauto.
  - rewrite project_lookup, decide_True by (unfold customer_feature_columns;
                                            elem_of_list).
    row_lookup. eauto.
  - rewrite project_lookup, decide_True by (unfold customer_feature_columns;
                                            elem_of_list).
    row_lookup. eauto.
Qed.

(** X3. Values kept by [compute_features_customers]: a surviving row
    keeps its customer_id and postal_code cells as they are; its age keeps
    its numeric value, a whole-number age [z] of at most [2^53] in
    absolute value (the integers a float holds exactly) coming out as the
    float of value [z] and a float age unchanged; and its label is the one
    of the age before the cast. *)
Theorem compute_features_customers_values
    (df : DataFrame) (drop_null_age : bool) (out : DataFrame) :
  compute_features_customers df drop_null_age = Ok out ->
  Forall2 (fun r r' =>
             r' !! "customer_id" = r !! "customer_id" /\
             r' !! "postal_code" = r !! "postal_code" /\
             (forall z, r !! "age" = Some (VInt z) ->
                        - 2 ^ 53 <= z <= 2 ^ 53 ->
                        r' !! "age" = Some (VFloat (inject_Z z))) /\
             (forall q, r !! "age" = Some (VFloat q) ->
                        r' !! "age" = Some (VFloat q)) /\
             exists a g, r !! "age" = Some a /\ age_group_of a = Ok g /\
                         r' !! "age_group" = Some g)
          (filter (fun r => null_at r "age" = false) (rows df)) (rows out).
Proof.
  intros Hout. destruct (customers_rows _ _ _ Hout) as [_ Hrows].
  eapply Forall2_impl; [exact Hrows|]. cbn beta.
  intros r r' (st & a & s & q & Hst & Ha & Hq & Hg & _ & ->).
  rewrite !project_lookup.
  rewrite !decide_True by (unfold customer_feature_columns; elem_of_list).
  row_lookup. repeat split; try done.
  - intros z Hz _. rewrite Ha in Hz. injection Hz as ->.
    destruct Hq as [[[= ->] Hd]|[=]]. destruct q as [n d]; cbn in *.
    by subst.
  - intros q' Hq'. rewrite Ha in Hq'. injection Hq' as ->.
    by destruct Hq as [[[=] _]|[= ->]].
  - by exists a, (VStr s).
Qed.

Lemma with_columns_id exprs df :
  Forall (fun c => c ∈ columns df) (exprs ≫= root_names) ->
  foldl add_column (columns df) (output_name <$> exprs) = columns df ->
  Forall (fun r => assign exprs r r = Ok r) (rows df) ->
  with_columns exprs df = Ok df.
Proof.
  intros Hc Hcols Hrows. unfold with_columns.
  apply check_columns_Ok in Hc. rewrite Hc. cbn [mbind result_bind].
  rewrite (traverse_Forall2_Ok _ (rows df) (rows df)).
  - cbn [mbind result_bind]. rewrite Hcols. by destruct df.
  - clear -Hrows. induction Hrows; constructor; auto.
Qed.

Lemma project_id names (r : gmap string value) :
  (forall c, is_Some (r !! c) -> c ∈ names) -> project names r = r.
Proof.
  intros Hdom. apply map_eq. intros c. rewrite project_lookup.
  case_decide as Hc; [done|].
  destruct (r !! c) eqn:Hr; [|done]. exfalso. apply Hc, Hdom. eauto.
Qed.

Lemma select_id names df :
  columns df = names ->
  Forall (fun r : gmap string value =>
            forall c, is_Some (r !! c) -> c ∈ names) (rows df) ->
  select names df = Ok df.
Proof.
  intros Hcols Hrows. unfold select.
  assert (Hc : check_columns names df = Ok tt).
  { apply check_columns_Ok, Forall_forall. intros c Hc. by rewrite Hcols. }
  rewrite Hc. cbn [mbind result_bind]. destruct df as [cs rs]. cbn in *.
  subst cs. do 2 f_equal.
  induction Hrows as [|r rs Hr _ IH]; [done|].
  cbn [fmap list_fmap]. by rewrite project_id, IH.
Qed.

(** X4. [compute_features_customers] is idempotent: run again on a table
    it returned, with the flag set or cleared, it returns that table
    unchanged. *)
Theorem compute_features_customers_idempotent
    (df : DataFrame) (drop_null_age again : bool) (out : DataFrame) :
  compute_features_customers df drop_null_age = Ok out ->
  compute_features_customers out again = Ok out.
Proof.
  intros Hout. destruct (customers_rows _ _ _ Hout) as [Hcols Hrows].
  assert (Hall : Forall (fun r' : gmap string value => exists v s q,
            r' !! "club_member_status" = Some v /\ v <> VNull /\
            r' !! "age" = Some (VFloat q) /\
            r' !! "age_group" = Some (VStr s) /\
            age_group_of (VFloat q) = Ok (VStr s) /\
            forall c, is_Some (r' !! c) -> c ∈ customer_feature_columns)
          (rows out)).
  { eapply Forall2_Forall_transfer;
      [|exact Hrows|apply Forall_true; intros; exact I].
    cbn beta. intros r r' (st & a & s & q & _ & _ & _ & _ & Hg & ->) _.
    exists (fill_null_value (VStr "ABSENT") st), s, q.
    rewrite !project_lookup.
    rewrite !decide_True by (unfold customer_feature_columns; elem_of_list).
    row_lookup. repeat split; try done.
    - by destruct st.
    - intros c. rewrite project_lookup. case_decide; [done|]. by intros [? ?]. }
  clear Hout Hrows. destruct out as [cs rs]. cbn [columns rows] in *. subst cs.
  apply compute_features_customers_steps. split; [reflexivity|].
  set (out := {| columns := customer_feature_columns; rows := rs |}).
  assert (H1 : filling_missing_club_member_status out = Ok out).
  { apply with_columns_id; [by repeat constructor|reflexivity|].
    eapply Forall_impl; [exact Hall|]. cbn beta.
    intros r (v & s & q & Hv & Hnn & _).
    cbn [assign eval output_name]. rewrite Hv. cbn [mbind result_bind].
    do 2 f_equal. apply insert_id. rewrite Hv. by destruct v. }
  assert (H2 : drop_na_age out = Ok out).
  { apply drop_nulls_id; [by repeat constructor|].
    eapply Forall_impl; [exact Hall|]. cbn beta.
    intros r (v & s & q & _ & _ & Ha & _).
    unfold has_null, null_at. cbn [existsb]. by rewrite Ha. }
  assert (H3 : with_columns [create_age_group; cast (col "age") Float64] out
               = Ok out).
  { apply with_columns_id; [by repeat constructor|reflexivity|].
    eapply Forall_impl; [exact Hall|]. cbn beta.
    intros r (v & s & q & _ & _ & Ha & Hs & Hg & _).
    cbn [assign]. rewrite (eval_create_age_group _ _ Ha), Hg.
    cbn [mbind result_bind eval]. rewrite Ha. cbn.
    do 2 f_equal. rewrite (insert_id r "age_group") by done.
    by apply insert_id. }
  exists out, out, out. repeat split; try done.
  apply select_id; [done|].
  eapply Forall_impl; [exact Hall|]. cbn beta.
  by intros r (v & s & q & _ & _ & _ & _ & _ & Hdom).
Qed.

(** X5. [filling_missing_club_member_status] keeps the columns and the
    number of rows, replaces a null status by ["ABSENT"], keeps a status
    that is a string and every cell of another column, leaves no null
    status behind, and is idempotent. *)
Theorem filling_missing_club_member_status_frame (df d1 : DataFrame) :
  filling_missing_club_member_status df = Ok d1 ->
  columns d1 = columns df /\
  Forall2 (fun r r1 =>
             (exists st, r !! "club_member_status" = Some st /\
                (st = VNull ->
                 r1 !! "club_member_status" = Some (VStr "ABSENT")) /\
                (forall s, st = VStr s ->
                 r1 !! "club_member_status" = Some (VStr s))) /\
             r1 !! "club_member_status" <> Some VNull /\
             forall c, c <> "club_member_status" -> r1 !! c = r !! c)
          (rows df) (rows d1) /\
  filling_missing_club_member_status d1 = Ok d1.
Proof.
  unfold filling_missing_club_member_status. intros H1.
  pose proof H1 as (Hc & Hcols & Hrows)%with_columns_inv.
  cbn in Hc. apply Forall_cons_1 in Hc as [Hc _].
  assert (Hcols' : columns d1 = columns df).
  { rewrite Hcols. cbn. unfold add_column. by rewrite decide_True. }
  split; [done|]. split.
  - eapply Forall2_impl; [exact Hrows|]. cbn beta. intros r r1 Hr.
    apply assign_fill_status in Hr as (st & Hst & ->). row_lookup.
    repeat split.
    + exists st. split; [done|]. split; [by intros ->|by intros s ->].
    + by destruct st.
    + intros c Hne. by rewrite lookup_insert_ne.
  - apply with_columns_id.
    + cbn. rewrite Hcols'. by repeat constructor.
    + cbn. unfold add_column. by rewrite decide_True by (by rewrite Hcols').
    + eapply Forall2_Forall_transfer;
        [|exact Hrows|apply Forall_true; intros; exact I].
      cbn beta. intros r r1 Hr _.
      apply assign_fill_status in Hr as (st & Hst & ->).
      cbn [assign eval output_name]. row_lookup. cbn [mbind result_bind].
      rewrite insert_insert_eq. by destruct st.
Qed.

(** X6. [drop_na_age] fails with [ColumnNotFoundError "age"] on a table
    without an age column; otherwise it keeps the columns and returns the
    rows whose age is not null, each as often as it occurs, unchanged and
    in their order: the rows of the result are the rows of the input with
    those of null age filtered out; and it is idempotent. *)
Theorem drop_na_age_frame (df : DataFrame) :
  ("age" ∉ columns df ->
   drop_na_age df = Err (ColumnNotFoundError "age")) /\
  ("age" ∈ columns df ->
   exists d, drop_na_age df = Ok d /\ columns d = columns df /\
     rows d = filter (fun r => r !! "age" <> Some VNull) (rows df) /\
     rows d `sublist_of` rows df /\
     (forall r, r ∈ rows d <-> r ∈ rows df /\ r !! "age" <> Some VNull) /\
     drop_na_age d = Ok d).
Proof.
  unfold drop_na_age, drop_nulls, check_columns, missing_column. split.
  - intros Hc. rewrite filter_cons, decide_True by done. done.
  - intros Hc.
    rewrite filter_cons, decide_False by (by intros ?). cbn.
    eexists. split; [reflexivity|]. cbn [columns rows].
    split; [done|]. split.
    { apply filter_ext_in, Forall_forall. intros r _.
      unfold has_null, null_at. cbn [existsb].
      destruct (r !! "age") as [[]|]; cbn; split; congruence. }
    split; [apply sublist_filter|]. split.
    + intros r. rewrite list_elem_of_filter.
      unfold has_null, null_at. cbn [existsb].
      destruct (r !! "age") as [[]|]; cbn; split; intros [? ?];
        split; congruence.
    + rewrite decide_False by (by intros ?). cbn.
      do 2 f_equal. apply list_filter_filter_l. auto.
Qed.

(** X7. The first two steps of [compute_features_customers] commute:
    filling the missing statuses and then dropping the null ages gives
    the table that dropping the null ages and then filling the missing
    statuses gives. *)
Theorem filling_and_drop_na_age_commute (df d1 d2 : DataFrame) :
  filling_missing_club_member_status df = Ok d1 ->
  drop_na_age d1 = Ok d2 ->
  exists d1', drop_na_age df = Ok d1' /\
              filling_missing_club_member_status d1' = Ok d2.
Proof.
  unfold filling_missing_club_member_status. intros H1 H2.
  pose proof H1 as (Hc & Hcols & Hrows)%with_columns_inv.
  cbn in Hc. apply Forall_cons_1 in Hc as [Hc _].
  assert (Hcols' : columns d1 = columns df).
  { rewrite Hcols. cbn. unfold add_column. by rewrite decide_True. }
  apply drop_nulls_inv in H2 as [Hage ->].
  apply Forall_cons_1 in Hage as [Hage _]. rewrite Hcols' in Hage.
  exists {| columns := columns df;
            rows := filter (fun r => has_null ["age"] r = false) (rows df) |}.
  split.
  - unfold drop_na_age, drop_nulls.
    assert (Hck : check_columns ["age"] df = Ok tt).
    { apply check_columns_Ok. by repeat constructor. }
    by rewrite Hck.
  - unfold with_columns. cbn [columns rows].
    assert (Hck : check_columns
                    ([fill_null (col "club_member_status") (VStr "ABSENT")]
                       ≫= root_names)
                    {| columns := columns df;
                       rows := filter (fun r => has_null ["age"] r = false)
                                      (rows df) |} = Ok tt).
    { apply check_columns_Ok. cbn. by repeat constructor. }
    rewrite Hck. cbn [mbind result_bind].
    rewrite (traverse_Forall2_Ok _ _
               (filter (fun r => has_null ["age"] r = false) (rows d1))).
    + cbn [mbind result_bind]. by rewrite <- Hcols.
    + eapply Forall2_filter; [|exact Hrows]. cbn beta.
      intros r r1 Hr. apply assign_fill_status in Hr as (st & _ & ->).
      unfold has_null, null_at. cbn [existsb].
      by rewrite lookup_insert_ne.
Qed.

Lemma closed_range_dec (lo hi q : Q) :
  (lo <= q <= hi)%Q \/ ~ (lo <= q <= hi)%Q.
Proof.
  destruct (Qlt_le_dec q lo) as [Hl|Hl]; [right; intros [? ?]; lra|].
  destruct (Qlt_le_dec hi q) as [Hh|Hh]; [right; intros [? ?]; lra|].
  by left.
Qed.

Lemma closed_ranges_dec q :
  (exists g, g <> "66+" /\ spec_in_age_group g q) \/
  (forall g, g <> "66+" -> ~ spec_in_age_group g q).
Proof.
  unfold spec_in_age_group.
  destruct (closed_range_dec 0 18 q) as [?|N1];
    [left; exists "0-18"; split; [done|]; tauto|].
  destruct (closed_range_dec 19 25 q) as [?|N2];
    [left; exists "19-25"; split; [done|]; tauto|].
  destruct (closed_range_dec 26 35 q) as [?|N3];
    [left; exists "26-35"; split; [done|]; tauto|].
  destruct (closed_range_dec 36 45 q) as [?|N4];
    [left; exists "36-45"; split; [done|]; tauto|].
  destruct (closed_range_dec 46 55 q) as [?|N5];
    [left; exists "46-55"; split; [done|]; tauto|].
  destruct (closed_range_dec 56 65 q) as [?|N6];
    [left; exists "56-65"; split; [done|]; tauto|].
  right. intros g Hne. clear -Hne N1 N2 N3 N4 N5 N6. tauto.
Qed.

(** The binning rule names one label at most for an age. *)
Lemma age_group_rule_unique g g' q :
  age_group_rule g q -> age_group_rule g' q -> g = g'.
Proof.
  unfold age_group_rule, in_earlier_range. intros Hg Hg'.
  destruct Hg as [[-> Hr]|[[-> Hr]|[[-> Hr]|[[-> Hr]|[[-> Hr]|[[-> Hr]
               |[-> Hr]]]]]]];
    destruct Hg' as [[-> Hr']|[[-> Hr']|[[-> Hr']|[[-> Hr']|[[-> Hr']
                    |[[-> Hr']|[-> Hr']]]]]]];
    try reflexivity; exfalso;
    try (destruct Hr as [? ?]; destruct Hr' as [? ?]; lra);
    try (destruct Hr as [Hr|Hr]; [destruct Hr'; lra|apply Hr; tauto]);
    try (destruct Hr' as [Hr'|Hr']; [destruct Hr; lra|apply Hr'; tauto]).
Qed.

(** The label of an age is the one the binning rule names. *)
Lemma age_group_of_rule q g :
  age_group_of (VFloat q) = Ok (VStr g) ->
  g ∈ age_groups /\ age_group_rule g q.
Proof.
  intros Hg. destruct (closed_ranges_dec q) as [(g0 & Hne & Hin)|Hout].
  - rewrite (age_group_of_in_range _ _ Hin) in Hg. injection Hg as <-.
    unfold spec_in_age_group in Hin. unfold age_group_rule, age_groups.
    destruct Hin as [[-> Hr]|[[-> Hr]|[[-> Hr]|[[-> Hr]|[[-> Hr]|[[-> Hr]
                    |[-> Hr]]]]]]]; [..|done];
      (split; [elem_of_list|]); tauto.
  - rewrite (age_group_of_otherwise _ Hout) in Hg. injection Hg as <-.
    split; [unfold age_groups; elem_of_list|].
    do 6 right. split; [done|]. right. unfold in_earlier_range.
    intros [Hr|[Hr|[Hr|[Hr|[Hr|Hr]]]]].
    + apply (Hout "0-18"); [done|]. left. tauto.
    + apply (Hout "19-25"); [done|]. right; left. tauto.
    + apply (Hout "26-35"); [done|]. right; right; left. tauto.
    + apply (Hout "36-45"); [done|]. right; right; right; left. tauto.
    + apply (Hout "46-55"); [done|]. right; right; right; right; left. tauto.
    + apply (Hout "56-65"); [done|].
      right; right; right; right; right; left. tauto.
Qed.

(** C4. Age binning in [compute_features_customers]: every surviving row
    has a numeric age, and carries as [age_group] exactly one of the seven
    labels, the one that the binning rule names for that age and the only
    one it names: the label of the closed range 0..18, 19..25, 26..35,
    36..45, 46..55 or 56..65 that holds the age, and ["66+"] for an age
    from 66 on or not matching an earlier range.  At the boundaries, 18
    is labelled ["0-18"], 19 ["19-25"], 65 ["56-65"] and 66 ["66+"], as a
    whole number and as a float. *)
Theorem age_group_follows_binning_rule
    (df : DataFrame) (drop_null_age : bool) (out : DataFrame) :
  compute_features_customers df drop_null_age = Ok out ->
  Forall2 (fun r r' =>
             exists a q g,
               r !! "age" = Some a /\ age_value a = Some q /\
               age_group_of a = Ok (VStr g) /\
               r' !! "age_group" = Some (VStr g) /\
               g ∈ age_groups /\
               age_group_rule g q /\
               forall g', age_group_rule g' q -> g' = g)
          (filter (fun r => null_at r "age" = false) (rows df)) (rows out) /\
  (forall q, (66 <= q)%Q \/ ~ in_earlier_range q ->
             age_group_of (VFloat q) = Ok (VStr "66+")) /\
  age_group_of (VInt 18) = Ok (VStr "0-18") /\
  age_group_of (VInt 19) = Ok (VStr "19-25") /\
  age_group_of (VInt 65) = Ok (VStr "56-65") /\
  age_group_of (VInt 66) = Ok (VStr "66+") /\
  age_group_of (VFloat (18 # 1)) = Ok (VStr "0-18") /\
  age_group_of (VFloat (19 # 1)) = Ok (VStr "19-25") /\
  age_group_of (VFloat (65 # 1)) = Ok (VStr "56-65") /\
  age_group_of (VFloat (66 # 1)) = Ok (VStr "66+").
Proof.
  intros Hout. split; [|split; [|exact age_group_boundaries]].
  - destruct (customers_rows _ _ _ Hout) as [_ Hrows].
    eapply Forall2_impl; [exact Hrows|]. cbn beta.
    intros r r' (st & a & s & q & _ & Ha & Hq & Hg & Hgq & ->).
    destruct (age_group_of_rule _ _ Hgq) as [Hs Hrule].
    exists a, q, s.
    rewrite !project_lookup.
    rewrite !decide_True by (unfold customer_feature_columns; elem_of_list).
    row_lookup. repeat split; try done.
    + destruct Hq as [[-> Hd]| ->]; [|done].
      destruct q as [n d]. cbn in Hd. by subst d.
    + intros g' Hg'. by apply (age_group_rule_unique _ _ q).
  - intros q Hq. destruct (closed_ranges_dec q) as [(g0 & Hne & Hin)|Hno];
      [|by apply age_group_of_otherwise].
    exfalso. unfold spec_in_age_group in Hin.
    destruct Hq as [Hq|Hq].
    + repeat match goal with
             | H : _ \/ _ |- _ => destruct H as [H|H]
             | H : _ /\ _ |- _ => destruct H
             end; subst; try done; lra.
    + apply Hq. unfold in_earlier_range.
      destruct Hin as [[_ Hr]|[[_ Hr]|[[_ Hr]|[[_ Hr]|[[_ Hr]|[[_ Hr]
                      |[-> _]]]]]]]; [tauto..|done].
Qed.

(** X8. What [create_age_group] answers: one of the six range labels
    exactly when the age lies in the closed range the label names, and
    ["66+"] exactly when the age lies in none of the six ranges, which
    covers the ages from 66 on but also the negative ages and the ages
    between two ranges; a null age gets ["66+"] too, and a whole-number
    age the label of the float of the same value. *)
Theorem create_age_group_label (q : Q) (g : string) :
  (age_group_of (VFloat q) = Ok (VStr g) <->
   (g <> "66+" /\ spec_in_age_group g q) \/
   (g = "66+" /\ forall g', g' <> "66+" -> ~ spec_in_age_group g' q)) /\
  ((q < 0)%Q -> age_group_of (VFloat q) = Ok (VStr "66+")) /\
  age_group_of VNull = Ok (VStr "66+") /\
  (forall z, age_group_of (VInt z) = age_group_of (VFloat (inject_Z z))).
Proof.
  split; [split|split; [|split]].
  - intros Hg. destruct (closed_ranges_dec q) as [(g0 & Hne & Hin)|Hout].
    + rewrite (age_group_of_in_range _ _ Hin) in Hg. injection Hg as <-.
      by left.
    + rewrite (age_group_of_otherwise _ Hout) in Hg. injection Hg as <-.
      by right.
  - intros [[_ Hin]|[-> Hout]].
    + by apply age_group_of_in_range.
    + by apply age_group_of_otherwise.
  - intros Hneg. apply age_group_of_otherwise.
    intros g' Hne Hin. unfold spec_in_age_group in Hin.
    repeat match goal with
           | H : _ \/ _ |- _ => destruct H as [H|H]
           | H : _ /\ _ |- _ => destruct H
           end; subst; try done; lra.
  - vm_compute. reflexivity.
  - apply age_group_of_int_float.
Qed.

End MoreCustomerFacts.

(** ** The transaction pipeline, further *)

Lemma civil_from_days_ranges days :
  1 <= month_of_days days <= 12 /\ 1 <= day_of_days days <= 31 /\
  1 <= weekday_of_days days <= 7.
Proof.
  unfold month_of_days, day_of_days, weekday_of_days, civil_from_days.
  cbv zeta. cbn [fst snd].
  set (z := days + 719468).
  set (era := z / 146097).
  set (doe := z - era * 146097).
  assert (Hdoe : 0 <= doe <= 146096)
    by (subst doe era; Z.to_euclidean_division_equations; lia).
  clearbody doe. clear z era.
  set (yoe := (doe - doe / 1460 + doe / 36524 - doe / 146096) / 365).
  set (doy := doe - (365 * yoe + yoe / 4 - yoe / 100)).
  assert (Hdoy : 0 <= doy <= 365)
    by (subst doy yoe; Z.to_euclidean_division_equations; lia).
  clearbody doy.
  set (mp := (5 * doy + 2) / 153).
  assert (Hmp : 0 <= mp <= 11)
    by (subst mp; Z.to_euclidean_division_equations; lia).
  assert (Hd : 1 <= doy - (153 * mp + 2) / 5 + 1 <= 31)
    by (subst mp; Z.to_euclidean_division_equations; lia).
  clearbody mp.
  split; [destruct (Z.ltb_spec mp 10); lia|]. split; [done|].
  Z.to_euclidean_division_equations; lia.
Qed.

Lemma Forall2_Exists_transfer {A B} (R : A -> B -> Prop) (P : A -> Prop) l k :
  Forall2 R l k -> Exists P l -> Exists (fun y => exists x, P x /\ R x y) k.
Proof.
  induction 1 as [|x y l k Hxy _ IH]; intros HP; inversion HP; subst.
  - apply Exists_cons_hd. eauto.
  - apply Exists_cons_tl. auto.
Qed.

Section MoreTransactionFacts.
Context `{Host}.

(** What a successful run makes of each row, and of the columns. *)
Lemma transactions_rows df out :
  compute_features_transactions df = Ok out ->
  "article_id" ∈ columns df /\ "t_dat" ∈ columns df /\
  columns out
  = foldl add_column (columns df) ["year"; "month"; "day"; "day_of_week"] /\
  Forall2 (fun r r' => exists a t a' y m d w e,
             r !! "article_id" = Some a /\ r !! "t_dat" = Some t /\
             cast_value Utf8 a = Ok a' /\
             dt_value year_of_days t = Ok y /\
             dt_value month_of_days t = Ok m /\
             dt_value day_of_days t = Ok d /\
             dt_value weekday_of_days t = Ok w /\
             cast_value Int64 t ≫= floordiv_value 1000000 = Ok e /\
             r' = <["t_dat" := e]> (<["day_of_week" := w]> (<["day" := d]>
                    (<["month" := m]> (<["year" := y]>
                      (<["article_id" := a']> r))))))
          (rows df) (rows out).
Proof.
  unfold compute_features_transactions. intros Hout.
  destruct (with_columns _ df) as [d1|] eqn:H1; [|done].
  cbn [mbind result_bind] in Hout.
  destruct (with_columns _ d1) as [d2|] eqn:H2; [|done].
  cbn [mbind result_bind] in Hout.
  apply with_columns_inv in H1 as (Hc1 & Hcols1 & H1).
  apply with_columns_inv in H2 as (Hc2 & Hcols2 & H2).
  apply with_columns_inv in Hout as (Hc3 & Hcols3 & H3).
  cbn in Hc1, Hc2, Hc3, Hcols1, Hcols2, Hcols3.
  apply Forall_cons_1 in Hc1 as [Ha _].
  apply Forall_cons_1 in Hc2 as [Ht1 _].
  apply Forall_cons_1 in Hc3 as [Ht2 _].
  assert (Hcols1' : columns d1 = columns df).
  { rewrite Hcols1. unfold add_column. by rewrite decide_True. }
  rewrite Hcols1' in Ht1, Hcols2.
  split; [done|]. split; [done|]. split.
  { rewrite Hcols3. unfold add_column at 1. rewrite decide_True by done.
    exact Hcols2. }
  pose proof (Forall2_compose _ _ _ _ _ H1
                (Forall2_compose _ _ _ _ _ H2 H3)) as Hall.
  eapply Forall2_impl; [exact Hall|]. cbn beta.
  intros r r' (r1 & Hr1 & r2 & Hr2 & Hr3).
  apply assign_article_id in Hr1 as (a & a' & Hra & Hca & ->).
  apply assign_calendar in Hr2
    as (t & y & m & d & w & Ht & Hy & Hm & Hd & Hw & ->).
  apply assign_epoch in Hr3 as (t' & e & Ht' & He & ->).
  row_lookup in Ht. row_lookup in Ht'. rewrite Ht in Ht'.
  injection Ht' as <-.
  by exists a, t, a', y, m, d, w, e.
Qed.

Lemma foldl_add_column_app cs names :
  NoDup names ->
  foldl add_column cs names = cs ++ filter (fun c => c ∉ cs) names.
Proof.
  intros Hnd. revert cs. induction Hnd as [|n names Hn _ IH]; intros cs.
  - by rewrite app_nil_r.
  - cbn [foldl]. rewrite IH, filter_cons. unfold add_column.
    destruct (decide (n ∈ cs)) as [Hin|Hin].
    + by rewrite decide_False by (by intros ?).
    + rewrite decide_True by done. rewrite <- app_assoc. cbn. do 2 f_equal.
      apply filter_ext_in. apply Forall_forall. intros c Hc.
      rewrite not_elem_of_app, list_elem_of_singleton.
      split; [tauto|]. intros Hcs. split; [done|]. by intros ->.
Qed.

Lemma series_of_rows (e : Expr) (name : string) df out :
  Forall (fun c => c ∈ columns df) (root_names e) ->
  Forall2 (fun r r' : gmap string value =>
             exists v, eval e r = Ok v /\ r' !! name = Some v)
          (rows df) (rows out) ->
  exists vs, series e df = Ok vs /\ column name out = Some <$> vs.
Proof.
  intros Hc Hrows. unfold series, column.
  apply check_columns_Ok in Hc. rewrite Hc. cbn [mbind result_bind].
  clear Hc. induction Hrows as [|r r' l l' (v & Hv & Hr') _ (vs & Hvs & Hcol)].
  - by exists [].
  - exists (v :: vs). cbn. rewrite Hv. cbn. rewrite Hvs. cbn.
    by rewrite Hr', Hcol.
Qed.

(** X9. Columns of the table [compute_features_transactions] returns:
    the input columns in their order ([article_id] and [t_dat], which the
    input must have, are replaced in place), followed by those of year,
    month, day, day_of_week, in this order, that the input did not have
    already. *)
Theorem compute_features_transactions_columns (df out : DataFrame) :
  compute_features_transactions df = Ok out ->
  "article_id" ∈ columns df /\ "t_dat" ∈ columns df /\
  columns out
  = columns df ++ filter (fun c => c ∉ columns df)
                         ["year"; "month"; "day"; "day_of_week"].
Proof.
  intros Hout. destruct (transactions_rows _ _ Hout) as (Ha & Ht & Hcols & _).
  split; [done|]. split; [done|]. rewrite Hcols.
  apply foldl_add_column_app.
  repeat (apply NoDup_cons; split;
          [intros Hin; repeat (apply elem_of_cons in Hin as [?|Hin]; [done|]);
           by apply elem_of_nil in Hin|]).
  apply NoDup_nil_2.
Qed.

(** X10. The stand-alone helpers agree with the pipeline: on a table
    that [compute_features_transactions] accepts,
    [convert_article_id_to_str], [get_year_feature], [get_month_feature],
    [get_day_feature], [get_day_of_week_feature] and
    [convert_t_dat_to_epoch_millisecond] each return the series that the
    pipeline stores in the column article_id, year, month, day,
    day_of_week and t_dat of its result. *)
Theorem transaction_helpers_agree_with_pipeline (df out : DataFrame) :
  compute_features_transactions df = Ok out ->
  (exists vs, convert_article_id_to_str df = Ok vs /\
              column "article_id" out = Some <$> vs) /\
  (exists vs, get_year_feature df = Ok vs /\
              column "year" out = Some <$> vs) /\
  (exists vs, get_month_feature df = Ok vs /\
              column "month" out = Some <$> vs) /\
  (exists vs, get_day_feature df = Ok vs /\
              column "day" out = Some <$> vs) /\
  (exists vs, get_day_of_week_feature df = Ok vs /\
              column "day_of_week" out = Some <$> vs) /\
  (exists vs, convert_t_dat_to_epoch_millisecond df = Ok vs /\
              column "t_dat" out = Some <$> vs).
Proof.
  intros Hout.
  destruct (transactions_rows _ _ Hout) as (Ha & Ht & _ & Hrows).
  repeat split;
    (apply series_of_rows; [by repeat constructor|];
     eapply Forall2_impl; [exact Hrows|]; cbn beta;
     intros r r' (a & t & a' & y & m & d & w & e & Hra & Hrt & Hca & Hy & Hm
                  & Hd & Hw & He & ->);
     cbn [eval]; rewrite ?Hra, ?Hrt; cbn [mbind result_bind]; row_lookup;
     eauto).
Qed.

Lemma dt_value_inv part t v :
  dt_value part t = Ok v ->
  t = VNull /\ v = VNull \/
  (exists u n, t = VDatetime u n /\ v = VInt (part (n / ticks_per_day u))) \/
  (exists d, t = VDate d /\ v = VInt (part d)).
Proof.
  destruct t; cbn; try discriminate; intros [= <-]; eauto 10.
Qed.

(** X11. Calendar cells of [compute_features_transactions]: in a
    returned table, a row whose [t_dat] was null has null year, month,
    day, day_of_week and t_dat; every other row has integers there, with
    the month between 1 and 12, the day between 1 and 31 and the
    day of the week between 1 and 7. *)
Theorem compute_features_transactions_calendar (df out : DataFrame) :
  compute_features_transactions df = Ok out ->
  Forall2 (fun r r' =>
             (r !! "t_dat" = Some VNull /\
              r' !! "year" = Some VNull /\ r' !! "month" = Some VNull /\
              r' !! "day" = Some VNull /\ r' !! "day_of_week" = Some VNull /\
              r' !! "t_dat" = Some VNull) \/
             (r !! "t_dat" <> Some VNull /\
              exists y m d w e,
                r' !! "year" = Some (VInt y) /\
                r' !! "month" = Some (VInt m) /\ 1 <= m <= 12 /\
                r' !! "day" = Some (VInt d) /\ 1 <= d <= 31 /\
                r' !! "day_of_week" = Some (VInt w) /\ 1 <= w <= 7 /\
                r' !! "t_dat" = Some (VInt e)))
          (rows df) (rows out).
Proof.
  intros Hout. destruct (transactions_rows _ _ Hout) as (_ & _ & _ & Hrows).
  eapply Forall2_impl; [exact Hrows|]. cbn beta.
  intros r r' (a & t & a' & y & m & d & w & e & _ & Hrt & _ & Hy & Hm & Hd
               & Hw & He & ->).
  row_lookup. rewrite Hrt.
  apply dt_value_inv in Hy as [[-> ->]|[(u & n & -> & ->)|(k & -> & ->)]].
  - left. cbn in Hm, Hd, Hw, He.
    injection Hm as <-. injection Hd as <-. injection Hw as <-.
    by injection He as <-.
  - right. cbn in Hm, Hd, Hw, He.
    injection Hm as <-. injection Hd as <-. injection Hw as <-.
    injection He as <-. split; [done|].
    destruct (civil_from_days_ranges (n / ticks_per_day u)) as (? & ? & ?).
    eauto 20.
  - right. cbn in Hm, Hd, Hw, He.
    injection Hm as <-. injection Hd as <-. injection Hw as <-.
    injection He as <-. split; [done|].
    destruct (civil_from_days_ranges k) as (? & ? & ?).
    eauto 20.
Qed.

(** X12. [compute_features_transactions] is not idempotent: run on a
    table it returned, it fails (with an error of polars) as soon as some
    input row had a non-null [t_dat], because [t_dat] is by then an
    integer and has no calendar parts. *)
Theorem compute_features_transactions_not_idempotent (df out : DataFrame) :
  compute_features_transactions df = Ok out ->
  Exists (fun r => r !! "t_dat" <> Some VNull) (rows df) ->
  exists e, compute_features_transactions out = Err e /\ polars_error e.
Proof.
  intros Hout Hex.
  destruct (transactions_rows _ _ Hout) as (_ & _ & _ & Hrows).
  destruct (compute_features_transactions out) as [out2|e] eqn:Hagain.
  - exfalso.
    destruct (transactions_rows _ _ Hagain) as (_ & _ & _ & Hrows2).
    pose proof (Forall2_Exists_transfer _ _ _ _ Hrows Hex) as Hex'.
    apply Exists_exists in Hex' as (r' & Hr' & r & Hnn & Hr).
    destruct Hr as (a & t & a' & y & m & d & w & e & _ & Hrt & _ & Hy & _
                    & _ & _ & He & ->).
    assert (Hin : exists r2, (fun r r2 : gmap string value =>
                    exists t', r !! "t_dat" = Some t' /\
                      exists y', dt_value year_of_days t' = Ok y')
                    (<["t_dat" := e]> (<["day_of_week" := w]> (<["day" := d]>
                      (<["month" := m]> (<["year" := y]>
                        (<["article_id" := a']> r)))))) r2).
    { apply list_elem_of_lookup_1 in Hr' as [i Hi].
      destruct (Forall2_lookup_l _ _ _ _ _ Hrows2 Hi)
        as (r2 & _ & a2 & t2 & a2' & y2 & _ & _ & _ & e2 & _ & Ht2 & _ & Hy2
            & _).
      exists r2, t2. eauto. }
    destruct Hin as (_ & t' & Ht' & y' & Hy').
    rewrite lookup_insert_eq in Ht'. injection Ht' as <-.
    rewrite Hrt in Hnn.
    apply dt_value_inv in Hy as [[-> _]|[(u & n & -> & _)|(k & -> & _)]];
      [done| |]; cbn in He; injection He as <-; discriminate.
  - exists e. split; [done|].
    revert Hagain. unfold compute_features_transactions.
    destruct (with_columns _ out) as [d1|] eqn:H1; cbn [mbind result_bind];
      [|intros [= <-]; eapply with_columns_Err, H1].
    destruct (with_columns _ d1) as [d2|] eqn:H2; cbn [mbind result_bind];
      [|intros [= <-]; eapply with_columns_Err, H2].
    apply with_columns_Err.
Qed.

(** X13. Rounding of [convert_t_dat_to_epoch_millisecond]: for a
    [Datetime] of native epoch integer [t], in any time unit, the value
    [e] it returns is the floor of [t / 1,000,000]
    ([1,000,000 e <= t < 1,000,000 (e + 1)], so a moment before 1970 is
    rounded down, not towards zero); and for a [Date], whose native
    integer is a day count, it returns 0 for every date from 1970-01-01
    up to day 999,999. *)
Theorem convert_t_dat_to_epoch_millisecond_floor (df : DataFrame) vs :
  convert_t_dat_to_epoch_millisecond df = Ok vs ->
  Forall2 (fun (r : gmap string value) v =>
             (forall u t, r !! "t_dat" = Some (VDatetime u t) ->
                exists e, v = VInt e /\
                          1000000 * e <= t < 1000000 * (e + 1)) /\
             (forall d, r !! "t_dat" = Some (VDate d) ->
                0 <= d < 1000000 -> v = VInt 0) /\
             (r !! "t_dat" = Some VNull -> v = VNull))
          (rows df) vs.
Proof.
  unfold convert_t_dat_to_epoch_millisecond, series. intros Hs.
  destruct (check_columns _ df); [|done]. cbn [mbind result_bind] in Hs.
  apply traverse_Forall2 in Hs.
  eapply Forall2_impl; [exact Hs|]. cbn beta. intros r v Hv.
  cbn [eval] in Hv. repeat split.
  - intros u t Ht. rewrite Ht in Hv. cbn in Hv. injection Hv as <-.
    eexists. split; [done|].
    Z.to_euclidean_division_equations; lia.
  - intros d Hd Hrange. rewrite Hd in Hv. cbn in Hv. injection Hv as <-.
    f_equal. apply Z.div_small. lia.
  - intros Ht. rewrite Ht in Hv. cbn in Hv. by injection Hv as <-.
Qed.

Lemma with_columns_missing exprs df c :
  missing_column (exprs ≫= root_names) df = Some c ->
  with_columns exprs df = Err (ColumnNotFoundError c).
Proof. intros Hc. unfold with_columns, check_columns. by rewrite Hc. Qed.

Lemma missing_column_one c df :
  c ∉ columns df -> missing_column [c] df = Some c.
Proof.
  intros Hc. unfold missing_column. by rewrite filter_cons, decide_True.
Qed.

(** X14. Failures of [compute_features_transactions]: it checks no
    schema of its own, so on a table without an [article_id] column it
    fails with polars' [ColumnNotFoundError "article_id"], on a table
    with castable identifiers but without a [t_dat] column with
    [ColumnNotFoundError "t_dat"], and it never fails with any other kind
    of error than polars' (no [ValueError]). *)
Theorem compute_features_transactions_failures (df : DataFrame) :
  ("article_id" ∉ columns df ->
   compute_features_transactions df
   = Err (ColumnNotFoundError "article_id")) /\
  ("article_id" ∈ columns df -> "t_dat" ∉ columns df ->
   Forall (fun r => exists a, r !! "article_id" = Some a /\
             (a = VNull \/ (exists z, a = VInt z) \/
              (exists s, a = VStr s))) (rows df) ->
   compute_features_transactions df = Err (ColumnNotFoundError "t_dat")) /\
  (forall e, compute_features_transactions df = Err e -> polars_error e).
Proof.
  split; [|split].
  - intros Ha. unfold compute_features_transactions.
    rewrite (with_columns_missing _ df "article_id"); [done|].
    by apply missing_column_one.
  - intros Ha Ht Hrows. unfold compute_features_transactions.
    destruct (with_columns_total
                [alias (cast (col "article_id") Utf8) "article_id"] df)
      as [rs1 H1].
    { by repeat constructor. }
    { eapply Forall_impl; [exact Hrows|].
      intros r (a & Hra & Hnum). cbn [assign eval output_name].
      rewrite Hra. cbn [mbind result_bind].
      destruct Hnum as [->|[[z ->]|[s' ->]]]; cbn; eauto. }
    rewrite H1. cbn [mbind result_bind].
    match goal with
    | |- context [with_columns ?es ?d] =>
        rewrite (with_columns_missing es d "t_dat"); [done|]
    end.
    unfold missing_column. cbn [columns].
    assert (Hcols : foldl add_column (columns df)
                      (output_name <$>
                         [alias (cast (col "article_id") Utf8) "article_id"])
                    = columns df).
    { cbn. unfold add_column. by rewrite decide_True. }
    rewrite Hcols. cbn [mbind list_bind root_names app].
    rewrite !filter_cons, !decide_True by done. done.
  - intros e. unfold compute_features_transactions.
    destruct (with_columns _ df) as [d1|] eqn:H1; cbn [mbind result_bind];
      [|intros [= <-]; eapply with_columns_Err, H1].
    destruct (with_columns _ d1) as [d2|] eqn:H2; cbn [mbind result_bind];
      [|intros [= <-]; eapply with_columns_Err, H2].
    apply with_columns_Err.
Qed.

End MoreTransactionFacts.

(** ** The sampler, further *)

Lemma filter_unique_key {A K} (f : A -> K) (P : A -> Prop)
    `{!forall x, Decision (P x)} (k : K) (l : list A) :
  NoDup (f <$> l) ->
  Forall (fun x => P x <-> f x = k) l ->
  (filter P l = [] /\ k ∉ f <$> l) \/
  (exists x, filter P l = [x] /\ k ∈ f <$> l).
Proof.
  induction l as [|x l IH]; intros Hnd HP.
  - left. split; [done|]. apply not_elem_of_nil.
  - rewrite fmap_cons in Hnd. apply NoDup_cons in Hnd as [Hx Hnd].
    apply Forall_cons_1 in HP as [HPx HP].
    rewrite filter_cons. destruct (decide (P x)) as [Hp|Hp].
    + right. exists x. apply HPx in Hp. subst k.
      destruct (IH Hnd HP) as [[-> _]|(y & _ & Hin)]; [|done].
      split; [done|]. rewrite fmap_cons. apply list_elem_of_here.
    + destruct (IH Hnd HP) as [[Hnil Hnot]|(y & Hy & Hin)].
      * left. split; [done|]. rewrite fmap_cons, not_elem_of_cons.
        split; [|done]. intros ->. by apply Hp, HPx.
      * right. exists y. split; [done|]. rewrite fmap_cons.
        by apply list_elem_of_further.
Qed.

Lemma bind_filter_singleton {A} (P : A -> Prop) `{!forall x, Decision (P x)}
    (g : A -> list A) (l : list A) :
  Forall (fun a => g a = if decide (P a) then [a] else []) l ->
  l ≫= g = filter P l.
Proof.
  induction 1 as [|a l Ha _ IH]; [done|].
  rewrite bind_cons, Ha, IH, filter_cons. by destruct (decide (P a)).
Qed.

Lemma NoDup_omap_lookup {A K} (f : A -> K) (l : list A) (idx : list nat) :
  NoDup (f <$> l) -> NoDup idx ->
  NoDup (f <$> omap (fun i => l !! i) idx).
Proof.
  intros Hl. induction 1 as [|i idx Hi Hidx IH]; [constructor|].
  cbn. destruct (l !! i) as [x|] eqn:Hx; cbn; [|done].
  apply NoDup_cons. split; [|done].
  intros Hin. apply list_elem_of_fmap in Hin as (y & Hxy & Hy).
  apply list_elem_of_omap in Hy as (j & Hj & Hy).
  assert (Hij : i = j).
  { eapply (NoDup_lookup (f <$> l)); [done| |].
    - rewrite list_lookup_fmap, Hx. done.
    - rewrite list_lookup_fmap, Hy. cbn. by rewrite Hxy. }
  by subst.
Qed.

Lemma Forall2_omap_lookup {A} (l : list A) (idx : list nat) :
  Forall (fun i => (i < length l)%nat) idx ->
  Forall2 (fun i x => l !! i = Some x) idx (omap (fun i => l !! i) idx).
Proof.
  induction 1 as [|i idx Hi _ IH]; [constructor|]. cbn.
  destruct (lookup_lt_is_Some_2 _ _ Hi) as [x Hx]. rewrite Hx. cbn.
  by constructor.
Qed.

Section MoreSamplerFacts.
Context `{Host}.

(** A successful run of [sample], step by step, with what it leaves in
    the world. *)
Lemma sample_Ok_inv self c t w out w' :
  DatasetSampler.sample self c t w = (Ok out, w') ->
  exists n s g ids,
    getitem DatasetSampler._SIZES (DatasetSampler._size self) = Ok n /\
    0 < n <= height c /\
    random_randint 0 10000 (random_seed 42) = (s, g) /\
    customers out
    = {| columns := columns c;
         rows := omap (fun i => rows c !! i)
                      (rand_index s (Z.to_nat n) (length (rows c))) |} /\
    select ["customer_id"] (customers out) = Ok ids /\
    join t ids "customer_id" = Ok (transactions out) /\
    py_random w' = g /\
    sink w'
    = sink w ++ ["Sampling " +:+ pretty n +:+ " customers.";
                 "Number of transactions for all the customers: "
                   +:+ pretty (height t);
                 "Number of transactions for the " +:+ pretty n
                   +:+ " sampled customers: "
                   +:+ pretty (height (transactions out))].
Proof.
  destruct (getitem_sizes (DatasetSampler._size self)) as (n & Hn & Hpos).
  unfold DatasetSampler.sample, DataFrame_sample, randint, seed, logger_info,
    lift, mbind, M_bind, mret, M_ret.
  cbn [py_random sink]. rewrite Hn.
  destruct (random_randint 0 10000 (random_seed 42)) as [s g] eqn:Hsg.
  destruct (Z.ltb_spec (height c) n) as [Hlt|Hle]; [discriminate|].
  destruct (select _ _) as [ids|] eqn:Hs; cbn [result_bind]; [|discriminate].
  destruct (join t ids "customer_id") as [t'|] eqn:Hj; cbn [result_bind];
    [|discriminate].
  intros [= <- <-]. exists n, s, g, ids. cbn [customers transactions].
  repeat split; try done; try lia.
  cbn [sink py_random]. by rewrite <- !app_assoc.
Qed.

(** X15. What [sample] does to the world: after a successful call the
    state of Python's global random generator is the one reached from
    seed 42 after one [randint(0, 10000)], whatever it was before the
    call, and exactly three lines have been added to the log: the number
    of customers asked for, the number of input transactions and the
    number of returned transactions. *)
Theorem sample_effects
    (self : DatasetSampler.t) (customers_df transaction_df : DataFrame)
    (w w' : world) (out : SampledDataset) :
  DatasetSampler.sample self customers_df transaction_df w = (Ok out, w') ->
  py_random w' = (random_randint 0 10000 (random_seed 42)).2 /\
  exists n,
    getitem DatasetSampler._SIZES (DatasetSampler._size self) = Ok n /\
    sink w'
    = sink w ++ ["Sampling " +:+ pretty n +:+ " customers.";
                 "Number of transactions for all the customers: "
                   +:+ pretty (height transaction_df);
                 "Number of transactions for the " +:+ pretty n
                   +:+ " sampled customers: "
                   +:+ pretty (height (transactions out))].
Proof.
  intros Hrun.
  apply sample_Ok_inv in Hrun
    as (n & s & g & ids & Hn & _ & Hsg & _ & _ & _ & Hg & Hsink).
  split; [by rewrite Hsg|]. by exists n.
Qed.

(** X16. The tables [sample] returns have the columns of the tables it
    was given, and the returned customers are the input rows at pairwise
    distinct positions: no customer row is drawn twice and none is
    altered. *)
Theorem sample_draws_distinct_rows
    (self : DatasetSampler.t) (customers_df transaction_df : DataFrame)
    (w w' : world) (out : SampledDataset) :
  DatasetSampler.sample self customers_df transaction_df w = (Ok out, w') ->
  columns (customers out) = columns customers_df /\
  columns (transactions out) = columns transaction_df /\
  exists idx : list nat,
    NoDup idx /\
    Forall2 (fun i r => rows customers_df !! i = Some r)
            idx (rows (customers out)).
Proof.
  intros Hrun.
  apply sample_Ok_inv in Hrun
    as (n & s & g & ids & Hn & [Hpos Hle] & Hsg & Hc & Hs & Hj & _ & _).
  destruct (join_customer_ids _ _ _ _ Hs Hj) as [Hcols _].
  rewrite Hc in *. cbn [columns rows]. split; [done|]. split; [done|].
  exists (rand_index s (Z.to_nat n) (length (rows customers_df))).
  split; [apply rand_index_NoDup|].
  apply Forall2_omap_lookup, rand_index_bound.
Qed.

Lemma keys_match_str a s :
  keys_match a (Some (VStr s)) = true <-> a = Some (VStr s).
Proof.
  unfold keys_match. split.
  - destruct a as [[]|]; cbn; try done.
    intros Hs. apply bool_decide_eq_true in Hs. by subst.
  - intros ->. cbn. by apply bool_decide_eq_true.
Qed.

(** The rows of the join of [sample], one list per input transaction. *)
Lemma join_customer_ids_rows t c' ids out :
  select ["customer_id"] c' = Ok ids ->
  join t ids "customer_id" = Ok out ->
  rows out
  = l ← rows t;
    filter (fun r : gmap string value =>
              keys_match (l !! "customer_id") (r !! "customer_id") = true)
           (project ["customer_id"] <$> rows c') ≫= (fun _ => [l]).
Proof.
  intros Hs Hj. apply select_inv in Hs as [_ ->].
  unfold join in Hj.
  destruct (check_columns _ t) as [u|]; [|done]. cbn [mbind result_bind] in Hj.
  destruct (check_columns _ _) as [u'|]; [|done]. cbn [mbind result_bind] in Hj.
  cbn [columns rows] in Hj.
  assert (Hextra : filter (fun c : string => c <> "customer_id") ["customer_id"]
                   = []) by reflexivity.
  rewrite Hextra in Hj. by injection Hj as <-.
Qed.

(** X17. With customers identified by distinct string ids, [sample]
    returns customers with distinct ids, and the returned transactions
    are, up to their order, the input transactions whose [customer_id] is
    the id of a returned customer, each as many times as it occurs in the
    input: the join neither duplicates nor loses a transaction of a
    sampled customer. *)
Theorem sample_unique_customers
    (self : DatasetSampler.t) (customers_df transaction_df : DataFrame)
    (w w' : world) (out : SampledDataset) :
  DatasetSampler.sample self customers_df transaction_df w = (Ok out, w') ->
  Forall (fun r : gmap string value => is_str (r !! "customer_id") = true)
         (rows customers_df) ->
  NoDup (column "customer_id" customers_df) ->
  NoDup (column "customer_id" (customers out)) /\
  rows (transactions out)
  ≡ₚ filter (fun r : gmap string value =>
               r !! "customer_id" ∈ column "customer_id" (customers out))
            (rows transaction_df).
Proof.
  intros Hrun Hstr Hnd.
  apply sample_Ok_inv in Hrun
    as (n & s & g & ids & _ & _ & _ & Hc & Hs & Hj & _ & _).
  rewrite (join_customer_ids_rows _ _ _ _ Hs Hj). rewrite Hc. clear Hc Hs Hj.
  unfold column in *. cbn [rows].
  set (rs := omap (fun i => rows customers_df !! i) _).
  assert (Hnd' : NoDup ((fun r : gmap string value => r !! "customer_id")
                          <$> rs)).
  { apply NoDup_omap_lookup; [done|apply rand_index_NoDup]. }
  split; [done|].
  assert (Hstr' : Forall (fun r : gmap string value =>
                            is_str (r !! "customer_id") = true) rs).
  { apply Forall_forall. intros r Hr.
    apply list_elem_of_omap in Hr as (i & _ & Hi).
    rewrite Forall_forall in Hstr. by eapply Hstr, list_elem_of_lookup_2. }
  assert (Hkeys : (fun r : gmap string value => r !! "customer_id")
                    <$> (project ["customer_id"] <$> rs)
                  = (fun r : gmap string value => r !! "customer_id") <$> rs).
  { rewrite <- list_fmap_compose. apply list_fmap_ext. intros i r _.
    unfold compose.
    by rewrite project_lookup, decide_True by elem_of_list. }
  rewrite (bind_filter_singleton
             (fun l : gmap string value =>
                l !! "customer_id"
                ∈ (fun r : gmap string value => r !! "customer_id") <$> rs));
    [done|].
  apply Forall_forall. intros l _.
  destruct (filter_unique_key
              (fun r : gmap string value => r !! "customer_id")
              (fun r : gmap string value =>
                 keys_match (l !! "customer_id") (r !! "customer_id") = true)
              (l !! "customer_id") (project ["customer_id"] <$> rs))
    as [[-> Hnot]|(x & -> & Hin)].
  - by rewrite Hkeys.
  - apply Forall_fmap, Forall_forall. intros r Hr. unfold compose.
    rewrite project_lookup, decide_True by elem_of_list.
    rewrite Forall_forall in Hstr'. specialize (Hstr' r Hr).
    destruct (r !! "customer_id") as [[]|]; try done.
    rewrite keys_match_str. split; congruence.
  - rewrite Hkeys in Hnot. by rewrite decide_False.
  - rewrite Hkeys in Hin. by rewrite decide_True.
Qed.

(** X18. How [sample] fails on missing rows and columns: every size
    class has its count (the lookup never raises [KeyError]); the call
    fails with [ShapeError] exactly when the customer table has fewer
    rows than the count; with at least that many rows it fails with
    [ColumnNotFoundError "customer_id"] when one of the two tables has
    no [customer_id] column, and a [ColumnNotFoundError] comes in no
    other case and names no other column. *)
Theorem sample_failures
    (self : DatasetSampler.t) (customers_df transaction_df : DataFrame)
    (w : world) :
  (exists n,
     getitem DatasetSampler._SIZES (DatasetSampler._size self) = Ok n) /\
  forall n,
    getitem DatasetSampler._SIZES (DatasetSampler._size self) = Ok n ->
    (height customers_df < n <->
     exists w', DatasetSampler.sample self customers_df transaction_df w
                = (Err ShapeError, w')) /\
    (n <= height customers_df ->
     "customer_id" ∉ columns customers_df \/
     "customer_id" ∉ columns transaction_df ->
     exists w', DatasetSampler.sample self customers_df transaction_df w
                = (Err (ColumnNotFoundError "customer_id"), w')) /\
    (forall c w',
       DatasetSampler.sample self customers_df transaction_df w
       = (Err (ColumnNotFoundError c), w') ->
       c = "customer_id" /\ n <= height customers_df /\
       ("customer_id" ∉ columns customers_df \/
        "customer_id" ∉ columns transaction_df)).
Proof.
  destruct (getitem_sizes (DatasetSampler._size self)) as (n0 & Hn0 & _).
  split; [by exists n0|]. intros n Hn.
  destruct (sample_run self customers_df transaction_df w n Hn)
    as (w0 & _ & -> & _).
  set (c' := {| columns := columns customers_df; rows := _ |}).
  assert (Hsel : "customer_id" ∉ columns customers_df ->
                 select ["customer_id"] c'
                 = Err (ColumnNotFoundError "customer_id")).
  { intros Hc. unfold select, check_columns.
    by rewrite (missing_column_one _ c'). }
  assert (Hsel' : "customer_id" ∈ columns customers_df ->
                  select ["customer_id"] c'
                  = Ok {| columns := ["customer_id"];
                          rows := project ["customer_id"] <$> rows c' |}).
  { intros Hc. unfold select.
    assert (Hck : check_columns ["customer_id"] c' = Ok tt).
    { apply check_columns_Ok. by repeat constructor. }
    by rewrite Hck. }
  assert (Hjoin : forall ids, columns ids = ["customer_id"] ->
                    "customer_id" ∉ columns transaction_df ->
                    join transaction_df ids "customer_id"
                    = Err (ColumnNotFoundError "customer_id")).
  { intros ids Hids Ht. unfold join, check_columns.
    by rewrite (missing_column_one _ transaction_df). }
  assert (Hjoin' : forall ids, columns ids = ["customer_id"] ->
                     "customer_id" ∈ columns transaction_df ->
                     exists t', join transaction_df ids "customer_id" = Ok t').
  { intros ids Hids Ht. unfold join.
    assert (Hck : check_columns ["customer_id"] transaction_df = Ok tt).
    { apply check_columns_Ok. by repeat constructor. }
    assert (Hck' : check_columns ["customer_id"] ids = Ok tt).
    { apply check_columns_Ok. rewrite Hids. repeat constructor. }
    rewrite Hck, Hck'. cbn [mbind result_bind]. eauto. }
  split; [|split].
  - destruct (Z.ltb_spec (height customers_df) n) as [Hlt|Hle].
    + split; [by exists w0|done].
    + split; [lia|]. intros [w' [= He _]]. revert He.
      destruct (decide ("customer_id" ∈ columns customers_df)) as [Hc|Hc];
        [|by rewrite (Hsel Hc)].
      rewrite (Hsel' Hc). cbn [mbind result_bind].
      destruct (decide ("customer_id" ∈ columns transaction_df)) as [Ht|Ht];
        [|by rewrite Hjoin].
      by destruct (Hjoin' {| columns := ["customer_id"];
                             rows := project ["customer_id"] <$> rows c' |}
                          eq_refl Ht) as [t' ->].
  - intros Hle Hmiss.
    destruct (Z.ltb_spec (height customers_df) n) as [|_]; [lia|].
    exists w0. f_equal.
    destruct (decide ("customer_id" ∈ columns customers_df)) as [Hc|Hc].
    + rewrite (Hsel' Hc). cbn [mbind result_bind].
      destruct Hmiss as [?|Ht]; [done|]. by rewrite Hjoin.
    + by rewrite (Hsel Hc).
  - intros e w' [= He <-]. revert He.
    destruct (Z.ltb_spec (height customers_df) n) as [Hlt|Hle]; [done|].
    destruct (decide ("customer_id" ∈ columns customers_df)) as [Hc|Hc].
    + rewrite (Hsel' Hc). cbn [mbind result_bind].
      destruct (decide ("customer_id" ∈ columns transaction_df)) as [Ht|Ht].
      * destruct (Hjoin' {| columns := ["customer_id"];
                            rows := project ["customer_id"] <$> rows c' |}
                         eq_refl Ht) as [t' ->].
        discriminate.
      * rewrite Hjoin by done. intros [= <-]. auto.
    + rewrite (Hsel Hc). intros [= <-]. auto.
Qed.

End MoreSamplerFacts.

(** ** The further properties at work on concrete tables *)

Section FurtherWitnesses.
#[local] Existing Instance demo_host.

Lemma compute_features_customers_schema_witness :
  compute_features_customers scenario_customers false = Ok scenario_features /\
  columns scenario_features = ["customer_id"; "club_member_status"; "age"; "postal_code";
                 "age_group"] /\
  Forall (fun r' : gmap string value =>
            (forall c, is_Some (r' !! c) -> c ∈ columns scenario_features) /\
            is_Some (r' !! "club_member_status") /\
            is_Some (r' !! "age") /\ is_Some (r' !! "age_group"))
         (rows scenario_features).
Proof.
  refine ((fun Hrun => conj Hrun
            (compute_features_customers_schema
           scenario_customers false scenario_features Hrun)) _).
  vm_compute; reflexivity.
Defined.

Lemma compute_features_customers_values_witness :
  compute_features_customers scenario_customers false = Ok scenario_features /\
  Forall2 (fun r r' =>
             r' !! "customer_id" = r !! "customer_id" /\
             r' !! "postal_code" = r !! "postal_code" /\
             (forall z, r !! "age" = Some (VInt z) ->
                        - 2 ^ 53 <= z <= 2 ^ 53 ->
                        r' !! "age" = Some (VFloat (inject_Z z))) /\
             (forall q, r !! "age" = Some (VFloat q) ->
                        r' !! "age" = Some (VFloat q)) /\
             exists a g, r !! "age" = Some a /\ age_group_of a = Ok g /\
                         r' !! "age_group" = Some g)
          (filter (fun r => null_at r "age" = false) (rows scenario_customers)) (rows scenario_features).
Proof.
  refine ((fun Hrun => conj Hrun
            (compute_features_customers_values
           scenario_customers false scenario_features Hrun)) _).
  vm_compute; reflexivity.
Defined.

Lemma compute_features_customers_idempotent_witness :
  compute_features_customers scenario_customers false = Ok scenario_features /\
  compute_features_customers scenario_features true = Ok scenario_features.
Proof.
  refine ((fun Hrun => conj Hrun
            (compute_features_customers_idempotent
           scenario_customers false true scenario_features Hrun)) _).
  vm_compute; reflexivity.
Defined.

Lemma filling_missing_club_member_status_frame_witness :
  filling_missing_club_member_status scenario_customers = Ok scenario_filled /\
  columns scenario_filled = columns scenario_customers /\
  Forall2 (fun r r1 =>
             (exists st, r !! "club_member_status" = Some st /\
                (st = VNull ->
                 r1 !! "club_member_status" = Some (VStr "ABSENT")) /\
                (forall s, st = VStr s ->
                 r1 !! "club_member_status" = Some (VStr s))) /\
             r1 !! "club_member_status" <> Some VNull /\
             forall c, c <> "club_member_status" -> r1 !! c = r !! c)
          (rows scenario_customers) (rows scenario_filled) /\
  filling_missing_club_member_status scenario_filled = Ok scenario_filled.
Proof.
  refine ((fun Hrun => conj Hrun
            (filling_missing_club_member_status_frame
           scenario_customers scenario_filled Hrun)) _).
  vm_compute; reflexivity.
Defined.

Lemma compute_features_transactions_columns_witness :
  compute_features_transactions demo_transactions = Ok demo_transaction_features /\
  "article_id" ∈ columns demo_transactions /\ "t_dat" ∈ columns demo_transactions /\
  columns demo_transaction_features
  = columns demo_transactions ++ filter (fun c => c ∉ columns demo_transactions)
                         ["year"; "month"; "day"; "day_of_week"].
Proof.
  refine ((fun Hrun => conj Hrun
            (compute_features_transactions_columns
           demo_transactions demo_transaction_features Hrun)) _).
  vm_compute; reflexivity.
Defined.

Lemma transaction_helpers_agree_with_pipeline_witness :
  compute_features_transactions demo_transactions = Ok demo_transaction_features /\
  (exists vs, convert_article_id_to_str demo_transactions = Ok vs /\
              column "article_id" demo_transaction_features = Some <$> vs) /\
  (exists vs, get_year_feature demo_transactions = Ok vs /\
              column "year" demo_transaction_features = Some <$> vs) /\
  (exists vs, get_month_feature demo_transactions = Ok vs /\
              column "month" demo_transaction_features = Some <$> vs) /\
  (exists vs, get_day_feature demo_transactions = Ok vs /\
              column "day" demo_transaction_features = Some <$> vs) /\
  (exists vs, get_day_of_week_feature demo_transactions = Ok vs /\
              column "day_of_week" demo_transaction_features = Some <$> vs) /\
  (exists vs, convert_t_dat_to_epoch_millisecond demo_transactions = Ok vs /\
              column "t_dat" demo_transaction_features = Some <$> vs).
Proof.
  refine ((fun Hrun => conj Hrun
            (transaction_helpers_agree_with_pipeline
           demo_transactions demo_transaction_features Hrun)) _).
  vm_compute; reflexivity.
Defined.

Lemma compute_features_transactions_calendar_witness :
  compute_features_transactions demo_transactions = Ok demo_transaction_features /\
  Forall2 (fun r r' =>
             (r !! "t_dat" = Some VNull /\
              r' !! "year" = Some VNull /\ r' !! "month" = Some VNull /\
              r' !! "day" = Some VNull /\ r' !! "day_of_week" = Some VNull /\
              r' !! "t_dat" = Some VNull) \/
             (r !! "t_dat" <> Some VNull /\
              exists y m d w e,
                r' !! "year" = Some (VInt y) /\
                r' !! "month" = Some (VInt m) /\ 1 <= m <= 12 /\
                r' !! "day" = Some (VInt d) /\ 1 <= d <= 31 /\
                r' !! "day_of_week" = Some (VInt w) /\ 1 <= w <= 7 /\
                r' !! "t_dat" = Some (VInt e)))
          (rows demo_transactions) (rows demo_transaction_features).
Proof.
  refine ((fun Hrun => conj Hrun
            (compute_features_transactions_calendar
           demo_transactions demo_transaction_features Hrun)) _).
  vm_compute; reflexivity.
Defined.

Lemma convert_t_dat_to_epoch_millisecond_floor_witness :
  convert_t_dat_to_epoch_millisecond microsecond_transactions = Ok [VInt 1579046400] /\
  Forall2 (fun (r : gmap string value) v =>
             (forall u t, r !! "t_dat" = Some (VDatetime u t) ->
                exists e, v = VInt e /\
                          1000000 * e <= t < 1000000 * (e + 1)) /\
             (forall d, r !! "t_dat" = Some (VDate d) ->
                0 <= d < 1000000 -> v = VInt 0) /\
             (r !! "t_dat" = Some VNull -> v = VNull))
          (rows microsecond_transactions) [VInt 1579046400].
Proof.
  refine ((fun Hrun => conj Hrun
            (convert_t_dat_to_epoch_millisecond_floor
           microsecond_transactions [VInt 1579046400] Hrun)) _).
  vm_compute; reflexivity.
Defined.

Lemma sample_effects_witness :
  DatasetSampler.sample (DatasetSampler.__init__ SMALL) demo_population demo_transactions demo_world = (Ok demo_sampled, demo_sampled_world) /\
  py_random demo_sampled_world = (random_randint 0 10000 (random_seed 42)).2 /\
  exists n,
    getitem DatasetSampler._SIZES (DatasetSampler._size (DatasetSampler.__init__ SMALL)) = Ok n /\
    sink demo_sampled_world
    = sink demo_world ++ ["Sampling " +:+ pretty n +:+ " customers.";
                 "Number of transactions for all the customers: "
                   +:+ pretty (height demo_transactions);
                 "Number of transactions for the " +:+ pretty n
                   +:+ " sampled customers: "
                   +:+ pretty (height (transactions demo_sampled))].
Proof.
  refine ((fun Hrun => conj Hrun
            (sample_effects
           (DatasetSampler.__init__ SMALL) demo_population demo_transactions
           demo_world demo_sampled_world demo_sampled Hrun)) _).
  vm_cast_no_check (eq_refl (Ok demo_sampled, demo_sampled_world)).
Defined.

Lemma sample_draws_distinct_rows_witness :
  DatasetSampler.sample (DatasetSampler.__init__ SMALL) demo_population demo_transactions demo_world = (Ok demo_sampled, demo_sampled_world) /\
  columns (customers demo_sampled) = columns demo_population /\
  columns (transactions demo_sampled) = columns demo_transactions /\
  exists idx : list nat,
    NoDup idx /\
    Forall2 (fun i r => rows demo_population !! i = Some r)
            idx (rows (customers demo_sampled)).
Proof.
  refine ((fun Hrun => conj Hrun
            (sample_draws_distinct_rows
           (DatasetSampler.__init__ SMALL) demo_population demo_transactions
           demo_world demo_sampled_world demo_sampled Hrun)) _).
  vm_cast_no_check (eq_refl (Ok demo_sampled, demo_sampled_world)).
Defined.

Lemma filling_and_drop_na_age_commute_witness :
  filling_missing_club_member_status scenario_customers = Ok scenario_filled /\
  drop_na_age scenario_filled = Ok scenario_filled_dropped /\
  exists d1', drop_na_age scenario_customers = Ok d1' /\
              filling_missing_club_member_status d1' = Ok scenario_filled_dropped.
Proof.
  refine ((fun H1 H2 =>
             conj H1 (conj H2
               (filling_and_drop_na_age_commute
                  scenario_customers scenario_filled scenario_filled_dropped
                  H1 H2))) _ _); vm_compute; reflexivity.
Defined.

Lemma compute_features_transactions_not_idempotent_witness :
  compute_features_transactions demo_transactions = Ok demo_transaction_features /\
  Exists (fun r => r !! "t_dat" <> Some VNull) (rows demo_transactions) /\
  exists e, compute_features_transactions demo_transaction_features = Err e /\ polars_error e.
Proof.
  assert (Hex : Exists (fun r => r !! "t_dat" <> Some VNull) (rows demo_transactions)).
  { apply Exists_cons_hd. vm_compute. discriminate. }
  refine ((fun Hrun =>
             conj Hrun (conj Hex
               (compute_features_transactions_not_idempotent
                  demo_transactions demo_transaction_features Hrun Hex))) _).
  vm_compute; reflexivity.
Defined.

Lemma sample_unique_customers_witness :
  DatasetSampler.sample (DatasetSampler.__init__ SMALL) demo_population demo_transactions demo_world = (Ok demo_sampled, demo_sampled_world) /\
  Forall (fun r : gmap string value => is_str (r !! "customer_id") = true)
         (rows demo_population) /\
  NoDup (column "customer_id" demo_population) /\
  NoDup (column "customer_id" (customers demo_sampled)) /\
  rows (transactions demo_sampled)
  ≡ₚ filter (fun r : gmap string value =>
               r !! "customer_id" ∈ column "customer_id" (customers demo_sampled))
            (rows demo_transactions).
Proof.
  assert (Hstr : Forall (fun r : gmap string value => is_str (r !! "customer_id") = true)
         (rows demo_population)).
  { refine (bool_decide_unpack _ _). vm_compute. exact I. }
  assert (Hnd : NoDup (column "customer_id" demo_population)).
  { refine (bool_decide_unpack _ _). vm_compute. exact I. }
  refine ((fun Hrun =>
             conj Hrun (conj Hstr (conj Hnd
               (sample_unique_customers
                  (DatasetSampler.__init__ SMALL) demo_population
                  demo_transactions demo_world demo_sampled_world
                  demo_sampled Hrun Hstr Hnd)))) _).
  vm_cast_no_check (eq_refl (Ok demo_sampled, demo_sampled_world)).
Defined.

Lemma compute_features_customers_validation_witness :
  filter (fun c => c ∉ columns incomplete_customers) required_columns <> [] /\
  compute_features_customers incomplete_customers true
  = Err (ValueError
           "Columns club_member_status, postal_code not found in the DataFrame").
Proof.
  assert (Hm : filter (fun c => c ∉ columns incomplete_customers)
                 required_columns <> []).
  { vm_compute. discriminate. }
  split; [exact Hm|].
  exact (proj1 (compute_features_customers_validation
                  incomplete_customers true) Hm).
Defined.

Lemma drop_na_age_frame_witness :
  ("age" ∉ columns anonymous_transactions /\
   drop_na_age anonymous_transactions = Err (ColumnNotFoundError "age")) /\
  "age" ∈ columns scenario_customers /\
  exists d, drop_na_age scenario_customers = Ok d /\
    columns d = columns scenario_customers /\
    rows d = filter (fun r => r !! "age" <> Some VNull)
                    (rows scenario_customers) /\
    rows d `sublist_of` rows scenario_customers /\
    (forall r, r ∈ rows d <->
               r ∈ rows scenario_customers /\ r !! "age" <> Some VNull) /\
    drop_na_age d = Ok d.
Proof.
  assert (Hno : "age" ∉ columns anonymous_transactions).
  { refine (bool_decide_unpack _ _). vm_compute. exact I. }
  assert (Hyes : "age" ∈ columns scenario_customers).
  { refine (bool_decide_unpack _ _). vm_compute. exact I. }
  split; [split; [exact Hno|]|split; [exact Hyes|]].
  - exact (proj1 (drop_na_age_frame anonymous_transactions) Hno).
  - exact (proj2 (drop_na_age_frame scenario_customers) Hyes).
Defined.

Lemma age_group_follows_binning_rule_witness :
  compute_features_customers scenario_customers false = Ok scenario_features /\
  Forall2 (fun r r' =>
             exists a q g,
               r !! "age" = Some a /\ age_value a = Some q /\
               age_group_of a = Ok (VStr g) /\
               r' !! "age_group" = Some (VStr g) /\
               g ∈ age_groups /\
               age_group_rule g q /\
               forall g', age_group_rule g' q -> g' = g)
          (filter (fun r => null_at r "age" = false) (rows scenario_customers))
          (rows scenario_features).
Proof.
  refine ((fun Hrun => conj Hrun
            (proj1 (age_group_follows_binning_rule
                      scenario_customers false scenario_features Hrun))) _).
  vm_compute. reflexivity.
Defined.

Lemma create_age_group_label_witness :
  (-1 < 0)%Q /\ age_group_of (VFloat (-1)) = Ok (VStr "66+").
Proof.
  split; [reflexivity|].
  apply (proj1 (proj2 (create_age_group_label (-1) "66+"))). reflexivity.
Defined.

Lemma compute_features_transactions_failures_witness :
  "article_id" ∉ columns scenario_customers /\
  compute_features_transactions scenario_customers
  = Err (ColumnNotFoundError "article_id").
Proof.
  assert (Hno : "article_id" ∉ columns scenario_customers).
  { refine (bool_decide_unpack _ _). vm_compute. exact I. }
  split; [exact Hno|].
  exact (proj1 (compute_features_transactions_failures scenario_customers)
               Hno).
Defined.

Lemma sample_failures_witness :
  1000 <= height demo_population /\
  "customer_id" ∉ columns anonymous_transactions /\
  exists w',
    DatasetSampler.sample (DatasetSampler.__init__ SMALL) demo_population anonymous_transactions
      demo_world
    = (Err (ColumnNotFoundError "customer_id"), w').
Proof.
  assert (Hle : 1000 <= height demo_population).
  { vm_compute. discriminate. }
  assert (Hno : "customer_id" ∉ columns anonymous_transactions).
  { refine (bool_decide_unpack _ _). vm_compute. exact I. }
  split; [exact Hle|]. split; [exact Hno|].
  apply (proj1 (proj2 (proj2 (sample_failures (DatasetSampler.__init__ SMALL)
                                demo_population anonymous_transactions
                                demo_world)
                         1000 eq_refl)) Hle).
  by right.
Defined.

End FurtherWitnesses.
